(** * Listener reconciliation of the Alicloud SLB resource

    A shallow embedding of [alicloud/resource_alicloud_slb.go]: the listener
    fingerprint and the set difference built on it, the http validator, the
    four protocol argument builders, the create/delete orchestration against
    the SLB client, and the reflective normalizer of remote listener
    attributes.

    Go's [int] is the 64-bit machine integer; no function below does
    arithmetic on a field, so the values are carried as [Z] unchanged. *)

From Stdlib Require Import ZArith Ascii String.
From stdpp Require Import gmap strings list fin_maps pretty.

Open Scope Z_scope.

(** ** Go values and strings *)

(** The dynamic values held by a [map[string]interface{}] or read through
    [reflect]: the schema of a listener only has [int] and string-kinded
    fields. *)
Inductive value :=
| VInt (n : Z)
| VStr (s : string).

Global Instance value_eq_dec : EqDecision value.
Proof. solve_decision. Defined.

(** [map[string]interface{}]. *)
Abbreviation attrs := (gmap string value).

(** [v.(int)] and [v.(string)]: [None] is the panic of a failed assertion. *)
Definition as_int (v : value) : option Z :=
  match v with VInt n => Some n | VStr _ => None end.

Definition as_str (v : value) : option string :=
  match v with VStr s => Some s | VInt _ => None end.

(** [strings.ToLower] and [strings.ToUpper] on ASCII text; a byte above 127
    belongs to a multi-byte rune, whose case mapping is the Unicode table's
    and is left alone here. *)
Definition lower_byte (a : ascii) : ascii :=
  let n := N_of_ascii a in
  if ((65 <=? n) && (n <=? 90))%N then ascii_of_N (n + 32) else a.

Definition upper_byte (a : ascii) : ascii :=
  let n := N_of_ascii a in
  if ((97 <=? n) && (n <=? 122))%N then ascii_of_N (n - 32) else a.

Fixpoint ToLower (s : string) : string :=
  match s with
  | EmptyString => EmptyString
  | String a r => String (lower_byte a) (ToLower r)
  end.

Fixpoint ToUpper (s : string) : string :=
  match s with
  | EmptyString => EmptyString
  | String a r => String (upper_byte a) (ToUpper r)
  end.

(** [fmt.Sprintf("%d", n)]. *)
Definition Itoa (n : Z) : string := pretty n.

(** ** hashcode.String *)

(** [crc32.ChecksumIEEE]: the reflected polynomial [0xEDB88320], one bit at a
    time. *)
Definition crc_bit (c : Z) : Z :=
  if Z.testbit c 0 then Z.lxor (Z.shiftr c 1) 0xEDB88320 else Z.shiftr c 1.

Definition crc_byte (c : Z) (b : ascii) : Z :=
  Nat.iter 8 crc_bit (Z.lxor c (Z.of_N (N_of_ascii b))).

Definition ChecksumIEEE (s : string) : Z :=
  Z.lxor (fold_left crc_byte (list_ascii_of_string s) 0xFFFFFFFF) 0xFFFFFFFF.

(** [hashcode.String]: the checksum as an [int], made non-negative. *)
Definition hashcode_String (s : string) : Z :=
  let v := ChecksumIEEE s in
  if 0 <=? v then v
  else if 0 <=? - v then - v
  else 0.

(** ** The listener fingerprint *)

(** [resourceAliyunSlbListenerHash]. The four required keys are asserted to
    their types; the certificate takes part only when its key is there. *)
Definition resourceAliyunSlbListenerHash (m : attrs) : option Z :=
  instance_port ← m !! "instance_port" ≫= as_int;
  lb_port ← m !! "lb_port" ≫= as_int;
  lb_protocol ← m !! "lb_protocol" ≫= as_str;
  bandwidth ← m !! "bandwidth" ≫= as_int;
  cert ← match m !! "ssl_certificate_id" with
         | Some v => s ← as_str v; Some (s +:+ "-")
         | None => Some ""
         end;
  Some (hashcode_String
          ((Itoa instance_port +:+ "-") +:+ (Itoa lb_port +:+ "-") +:+
           (ToLower lb_protocol +:+ "-") +:+ (Itoa bandwidth +:+ "-") +:+ cert)).

(** ** schema.Set *)

(** The set type of the schema helper: items stored under their hash code.
    The code is the key of a Go map; [strconv.Itoa] of it is injective, so
    the integer itself is the key here. *)
Module SchemaSet.
Section WithHash.
Context {A : Type}.
(** The field [F] of the set: the item hash, [None] when it panics. *)
Variable F : A → option Z.

(** [Set.hash]. *)
Definition hash (item : A) : option Z :=
  code ← F item;
  Some (if code <? 0 then - code else code).

(** [Set.add]: the first item stored under a code stays. *)
Definition add (item : A) (s : gmap Z A) : option (gmap Z A) :=
  code ← hash item;
  Some (match s !! code with
        | Some _ => s
        | None => <[code := item]> s
        end).

(** [NewSet]: the items added from left to right. *)
Definition NewSet (items : list A) : option (gmap Z A) :=
  foldl (λ acc item, acc ≫= add item) (Some ∅) items.

(** [Set.Difference]: the entries of [s] whose code [other] lacks. *)
Definition Difference (s other : gmap Z A) : gmap Z A := s ∖ other.

(** [Set.List]: the stored items. Go lists them by sorted code; nothing
    here depends on the order. *)
Definition List (s : gmap Z A) : list A := (map_to_list s).*2.

(** Every item sits under its own code, as [add] leaves it. *)
Definition wf (s : gmap Z A) : Prop :=
  ∀ k v, s !! k = Some v → hash v = Some k.
End WithHash.
End SchemaSet.

(** The fingerprint under which a listener block is stored in the set. *)
Definition fingerprint : attrs → option Z :=
  SchemaSet.hash resourceAliyunSlbListenerHash.

(** The two differences of [resourceAliyunSlbUpdate], [os.Difference(ns)]
    to remove and [ns.Difference(os)] to add, each listed: [os] is the old
    (current) set and [ns] the new (desired) one. *)
Definition listenerDiff (ns os : gmap Z attrs) : list attrs * list attrs :=
  (SchemaSet.List (SchemaSet.Difference os ns),
   SchemaSet.List (SchemaSet.Difference ns os)).


(** ** The listener model and the request shapes of the slb package *)

(** The constants of the slb package the file compares against. *)
Module slb.
Definition OnFlag : string := "on".
Definition OffFlag : string := "off".
Definition InsertStickySessionType : string := "insert".
Definition ServerStickySessionType : string := "server".
Definition Stopped : string := "stopped".
End slb.

(** Modelled from the spec: the struct [Listener] is declared outside this
    file; it is given the fields this file reads, which are those of the
    specification's Listener. The named string types of the slb package
    ([SchedulerType], [FlagType], ...) are strings. *)
Record Listener := {
  InstancePort : Z;
  LoadBalancerPort : Z;
  Protocol : string;
  Bandwidth : Z;
  Scheduler : string;
  StickySession : string;
  StickySessionType : string;
  CookieTimeout : Z;
  Cookie : string;
  PersistenceTimeout : Z;
  HealthCheck : string;
  HealthCheckType : string;
  HealthCheckDomain : string;
  HealthCheckURI : string;
  HealthCheckConnectPort : Z;
  HealthyThreshold : Z;
  UnhealthyThreshold : Z;
  HealthCheckTimeout : Z;
  HealthCheckInterval : Z;
  HealthCheckHttpCode : string;
  SSLCertificateId : string
}.

(** [slb.CreateLoadBalancerTCPListenerArgs], by the fields of the struct
    literal in [getTcpListenerArgs]. The attribute response of a TCP
    listener embeds the same struct. *)
Module TCPListenerType.
Record t := {
  LoadBalancerId : string;
  ListenerPort : Z;
  BackendServerPort : Z;
  Bandwidth : Z;
  Scheduler : string;
  PersistenceTimeout : Z;
  HealthCheckType : string;
  HealthCheckDomain : string;
  HealthCheckURI : string;
  HealthCheckConnectPort : Z;
  HealthyThreshold : Z;
  UnhealthyThreshold : Z;
  HealthCheckConnectTimeout : Z;
  HealthCheckInterval : Z;
  HealthCheckHttpCode : string
}.
End TCPListenerType.

(** [slb.CreateLoadBalancerUDPListenerArgs], by the fields of the struct
    literal in [getUdpListenerArgs]. *)
Module UDPListenerType.
Record t := {
  LoadBalancerId : string;
  ListenerPort : Z;
  BackendServerPort : Z;
  Bandwidth : Z;
  PersistenceTimeout : Z;
  HealthCheckConnectTimeout : Z;
  HealthCheckInterval : Z
}.
End UDPListenerType.

(** [slb.HTTPListenerType], by the fields of the struct literal in
    [getHttpListenerType]; [slb.CreateLoadBalancerHTTPListenerArgs] is a
    conversion of it. *)
Module HTTPListenerType.
Record t := {
  LoadBalancerId : string;
  ListenerPort : Z;
  BackendServerPort : Z;
  Bandwidth : Z;
  Scheduler : string;
  HealthCheck : string;
  StickySession : string;
  StickySessionType : string;
  CookieTimeout : Z;
  Cookie : string;
  HealthCheckDomain : string;
  HealthCheckURI : string;
  HealthCheckConnectPort : Z;
  HealthyThreshold : Z;
  UnhealthyThreshold : Z;
  HealthCheckTimeout : Z;
  HealthCheckInterval : Z;
  HealthCheckHttpCode : string
}.

(** The zero value a named result starts from. *)
Definition zero : t :=
  Build_t "" 0 0 0 "" "" "" "" 0 "" "" "" 0 0 0 0 0 "".
End HTTPListenerType.

(** [slb.CreateLoadBalancerHTTPSListenerArgs]: the embedded http block and
    the certificate. *)
Module HTTPSListenerType.
Record t := {
  HTTPListenerType : HTTPListenerType.t;
  ServerCertificateId : string
}.
End HTTPSListenerType.

(** ** Errors *)

(** Modelled from the spec: the kinds carried by a [ListenerErr], declared
    outside this file. They are the four constants this file names, for a
    health check left incomplete, a sticky session without its type, an
    insert session without its cookie timeout and a server session without
    its cookie. *)
Inductive ListenerErrType :=
| HealthCheckErrType
| StickySessionErrType
| CookieTimeOutErrType
| CookieErrType.

Record ListenerErr := {
  ErrType : ListenerErrType;
  Err : string
}.

(** Go's [error] values as this file makes and meets them. *)
Inductive error :=
| Errorf (msg : string)
| ListenerError (e : ListenerErr)
| ApiError (code : string)
| Wrapf (msg : string) (cause : error).

Global Instance ListenerErrType_eq_dec : EqDecision ListenerErrType.
Proof. solve_decision. Defined.

(** ** The validator and the protocol argument builders *)

Definition getTcpListenerArgs (loadBalancerId : string) (listener : Listener)
  : TCPListenerType.t :=
  {| TCPListenerType.LoadBalancerId := loadBalancerId;
     TCPListenerType.ListenerPort := LoadBalancerPort listener;
     TCPListenerType.BackendServerPort := InstancePort listener;
     TCPListenerType.Bandwidth := Bandwidth listener;
     TCPListenerType.Scheduler := Scheduler listener;
     TCPListenerType.PersistenceTimeout := PersistenceTimeout listener;
     TCPListenerType.HealthCheckType := HealthCheckType listener;
     TCPListenerType.HealthCheckDomain := HealthCheckDomain listener;
     TCPListenerType.HealthCheckURI := HealthCheckURI listener;
     TCPListenerType.HealthCheckConnectPort := HealthCheckConnectPort listener;
     TCPListenerType.HealthyThreshold := HealthyThreshold listener;
     TCPListenerType.UnhealthyThreshold := UnhealthyThreshold listener;
     TCPListenerType.HealthCheckConnectTimeout := HealthCheckTimeout listener;
     TCPListenerType.HealthCheckInterval := HealthCheckInterval listener;
     TCPListenerType.HealthCheckHttpCode := HealthCheckHttpCode listener |}.

Definition getUdpListenerArgs (loadBalancerId : string) (listener : Listener)
  : UDPListenerType.t :=
  {| UDPListenerType.LoadBalancerId := loadBalancerId;
     UDPListenerType.ListenerPort := LoadBalancerPort listener;
     UDPListenerType.BackendServerPort := InstancePort listener;
     UDPListenerType.Bandwidth := Bandwidth listener;
     UDPListenerType.PersistenceTimeout := PersistenceTimeout listener;
     UDPListenerType.HealthCheckConnectTimeout := HealthCheckTimeout listener;
     UDPListenerType.HealthCheckInterval := HealthCheckInterval listener |}.

(** The condition of the health-check guard: some detail field is empty. *)
Definition healthCheckEmpty (listener : Listener) : bool :=
  bool_decide (HealthCheckURI listener = "") ||
  bool_decide (HealthCheckDomain listener = "") ||
  bool_decide (HealthCheckConnectPort listener = 0) ||
  bool_decide (HealthyThreshold listener = 0) ||
  bool_decide (UnhealthyThreshold listener = 0) ||
  bool_decide (HealthCheckTimeout listener = 0) ||
  bool_decide (HealthCheckHttpCode listener = "") ||
  bool_decide (HealthCheckInterval listener = 0).

(** [getHttpListenerType]: the http rules, then the http block. A failed
    rule returns the zero block with its [ListenerErr]. *)
Definition getHttpListenerType (loadBalancerId : string) (listener : Listener)
  : HTTPListenerType.t * option error :=
  let fail kind msg :=
    (HTTPListenerType.zero,
     Some (ListenerError {| ErrType := kind; Err := msg |})) in
  let httpListenertType :=
    {| HTTPListenerType.LoadBalancerId := loadBalancerId;
       HTTPListenerType.ListenerPort := LoadBalancerPort listener;
       HTTPListenerType.BackendServerPort := InstancePort listener;
       HTTPListenerType.Bandwidth := Bandwidth listener;
       HTTPListenerType.Scheduler := Scheduler listener;
       HTTPListenerType.HealthCheck := HealthCheck listener;
       HTTPListenerType.StickySession := StickySession listener;
       HTTPListenerType.StickySessionType := StickySessionType listener;
       HTTPListenerType.CookieTimeout := CookieTimeout listener;
       HTTPListenerType.Cookie := Cookie listener;
       HTTPListenerType.HealthCheckDomain := HealthCheckDomain listener;
       HTTPListenerType.HealthCheckURI := HealthCheckURI listener;
       HTTPListenerType.HealthCheckConnectPort := HealthCheckConnectPort listener;
       HTTPListenerType.HealthyThreshold := HealthyThreshold listener;
       HTTPListenerType.UnhealthyThreshold := UnhealthyThreshold listener;
       HTTPListenerType.HealthCheckTimeout := HealthCheckTimeout listener;
       HTTPListenerType.HealthCheckInterval := HealthCheckInterval listener;
       HTTPListenerType.HealthCheckHttpCode := HealthCheckHttpCode listener |} in
  if bool_decide (HealthCheck listener = slb.OnFlag) && healthCheckEmpty listener
  then fail HealthCheckErrType "err: HealthCheck empty."
  else if bool_decide (StickySession listener = slb.OnFlag) then
    if bool_decide (StickySessionType listener = "")
    then fail StickySessionErrType "err: stickySession empty."
    else if bool_decide (StickySessionType listener = slb.InsertStickySessionType) then
      if bool_decide (CookieTimeout listener = 0)
      then fail CookieTimeOutErrType "err: cookieTimeout empty."
      else (httpListenertType, None)
    else if bool_decide (StickySessionType listener = slb.ServerStickySessionType) then
      if bool_decide (Cookie listener = "")
      then fail CookieErrType "err: cookie empty."
      else (httpListenertType, None)
    else (httpListenertType, None)
  else (httpListenertType, None).

(** [getHttpListenerArgs]: the block converted to the create arguments, or
    the zero arguments with the validator's error. *)
Definition getHttpListenerArgs (loadBalancerId : string) (listener : Listener)
  : HTTPListenerType.t * option error :=
  let '(httpListenerType, err) := getHttpListenerType loadBalancerId listener in
  match err with
  | Some e => (HTTPListenerType.zero, Some e)
  | None => (httpListenerType, err)
  end.

(** ** The SLB client and the calls made on it *)

(** The remote operations this file invokes on [*slb.Client]. *)
Inductive call :=
| CreateLoadBalancerTCPListener (args : TCPListenerType.t)
| CreateLoadBalancerHTTPListener (args : HTTPListenerType.t)
| CreateLoadBalancerHTTPSListener (args : HTTPSListenerType.t)
| CreateLoadBalancerUDPListener (args : UDPListenerType.t)
| WaitForListenerAsyn (loadBalancerId : string) (port : Z)
    (listenerType : string) (status : string) (timeout : Z)
| StartLoadBalancerListener (loadBalancerId : string) (port : Z)
| DeleteLoadBalancerListener (loadBalancerId : string) (port : Z).

(** The client over a remote service in state [W]: a call answers with an
    error or [nil] and moves the service on. [WaitForListenerAsyn] answers
    [nil] once it has seen the listener in the asked status, and an error
    when its timeout ran out first. *)
Record Client (W : Type) := {
  invoke : call → W → option error * W
}.
Arguments invoke {W} _ _ _.

(** A call together with its answer, as the service saw it. *)
Definition event : Type := call * option error.

(** Computations against the service: the result, the service afterwards
    and the calls made, oldest first. *)
Definition M (W A : Type) : Type := W → A * W * list event.

Definition ret {W A} (a : A) : M W A := λ w, (a, w, []).

Definition bind {W A B} (m : M W A) (k : A → M W B) : M W B :=
  λ w, let '(a, w1, t1) := m w in
       let '(b, w2, t2) := k a w1 in
       (b, w2, t1 ++ t2).

Notation "'do' x <- m ; k" := (bind m (λ x, k))
  (at level 10, x name, m at level 100, k at level 200).

Definition rpc {W} (conn : Client W) (c : call) : M W (option error) :=
  λ w, let '(r, w') := invoke conn c w in (r, w', [(c, r)]).

(** The calls a computation made from [w], and its result. *)
Definition trace {W A} (m : M W A) (w : W) : list event := (m w).2.
Definition result {W A} (m : M W A) (w : W) : A := (m w).1.1.

Definition is_create (c : call) : bool :=
  match c with
  | CreateLoadBalancerTCPListener _ | CreateLoadBalancerHTTPListener _
  | CreateLoadBalancerHTTPSListener _ | CreateLoadBalancerUDPListener _ => true
  | _ => false
  end.

Definition is_start (c : call) : bool :=
  match c with StartLoadBalancerListener _ _ => true | _ => false end.

Definition is_delete (c : call) : bool :=
  match c with DeleteLoadBalancerListener _ _ => true | _ => false end.

(** ** The apply orchestrator *)

(** The closure [errTypeJudge] of [createListener]: a [ListenerErr] becomes
    the message of its kind; any other error, and [nil], become [nil]. The
    closing answer of the closure, for a kind it does not know, has no case:
    the four kinds are all there are. *)
Definition errTypeJudge (err : option error) : option error :=
  match err with
  | Some (ListenerError listenerType) =>
      match ErrType listenerType with
      | HealthCheckErrType =>
          Some (Errorf "When the HealthCheck is on, then related HealthCheck parameter must have.")
      | StickySessionErrType =>
          Some (Errorf "When the StickySession is on, then StickySessionType parameter must have.")
      | CookieTimeOutErrType =>
          Some (Errorf "When the StickySession is on and StickySessionType is insert, then CookieTimeout parameter must have.")
      | CookieErrType =>
          Some (Errorf "When the StickySession is on and StickySessionType is server, then Cookie parameter must have.")
      end
  | _ => None
  end.

Section Orchestrator.
Context {W : Type}.
(** The timeout constant of the package handed to the poll. *)
Variable defaultTimeout : Z.
(** [expandListeners], which turns listed set items into [Listener]s; its
    error result is dropped by the caller. *)
Variable expandListeners : list attrs → list Listener.

(** The protocol dispatch of [createListener]: the create call of the
    listener's protocol, or the parameter error that stopped it. *)
Definition createCall (conn : Client W) (loadBalancerId : string)
    (listener : Listener) : M W (option error) :=
  if bool_decide (Protocol listener = ToLower "tcp") then
    let args := getTcpListenerArgs loadBalancerId listener in
    rpc conn (CreateLoadBalancerTCPListener args)
  else if bool_decide (Protocol listener = ToLower "http") then
    let '(args, argsErr) := getHttpListenerArgs loadBalancerId listener in
    match errTypeJudge argsErr with
    | Some paramErr => ret (Some paramErr)
    | None => rpc conn (CreateLoadBalancerHTTPListener args)
    end
  else if bool_decide (Protocol listener = ToLower "https") then
    let '(listenerType, err) := getHttpListenerType loadBalancerId listener in
    match errTypeJudge err with
    | Some paramErr => ret (Some paramErr)
    | None =>
        if bool_decide (SSLCertificateId listener = "") then
          ret (Some (Errorf "Server Certificated Id cann't be null"))
        else
          let args :=
            {| HTTPSListenerType.HTTPListenerType := listenerType;
               HTTPSListenerType.ServerCertificateId := SSLCertificateId listener |} in
          rpc conn (CreateLoadBalancerHTTPSListener args)
    end
  else if bool_decide (Protocol listener = ToLower "udp") then
    let args := getUdpListenerArgs loadBalancerId listener in
    rpc conn (CreateLoadBalancerUDPListener args)
  else ret None.

(** [createListener]: create, wait for the stopped status, start. *)
Definition createListener (conn : Client W) (loadBalancerId : string)
    (listener : Listener) : M W (option error) :=
  do created <- createCall conn loadBalancerId listener;
  match created with
  | Some err => ret (Some err)
  | None =>
      do waited <- rpc conn
        (WaitForListenerAsyn loadBalancerId (LoadBalancerPort listener)
           (ToUpper (Protocol listener)) slb.Stopped defaultTimeout);
      match waited with
      | Some err => ret (Some (Wrapf "WaitForListener stopped got error: " err))
      | None =>
          rpc conn (StartLoadBalancerListener loadBalancerId (LoadBalancerPort listener))
      end
  end.

(** The removal loop of [resourceAliyunSlbUpdate]. *)
Fixpoint removeListeners (conn : Client W) (id : string) (remove : list Listener)
  : M W (option error) :=
  match remove with
  | [] => ret None
  | listener :: rest =>
      do err <- rpc conn (DeleteLoadBalancerListener id (LoadBalancerPort listener));
      match err with
      | Some e => ret (Some (Wrapf "Failure removing outdated SLB listeners: " e))
      | None => removeListeners conn id rest
      end
  end.

(** The addition loop of [resourceAliyunSlbUpdate]. *)
Fixpoint addListeners (conn : Client W) (id : string) (add : list Listener)
  : M W (option error) :=
  match add with
  | [] => ret None
  | listener :: rest =>
      do err <- createListener conn id listener;
      match err with
      | Some e => ret (Some (Wrapf "Failure add SLB listeners: " e))
      | None => addListeners conn id rest
      end
  end.

(** The two loops over the lists the diff produced. *)
Definition applyListeners (conn : Client W) (id : string)
    (remove add : list Listener) : M W (option error) :=
  do removed <- removeListeners conn id remove;
  match removed with
  | Some e => ret (Some e)
  | None => addListeners conn id add
  end.

(** The listener block of [resourceAliyunSlbUpdate], for the resource [id]
    whose listener set changes from [o] to [n]; [None] is the block left
    without an error. [HasChange] on a set is inequality of the stored
    maps. The name, bandwidth and instances blocks and the closing read do
    not touch listeners and are left out. *)
Definition resourceAliyunSlbUpdate (conn : Client W) (id : string)
    (o n : gmap Z attrs) : M W (option error) :=
  if bool_decide (o ≠ n) then
    let remove := expandListeners (listenerDiff n o).1 in
    let add := expandListeners (listenerDiff n o).2 in
    applyListeners conn id remove add
  else ret None.
End Orchestrator.

(** ** The remote normalizer *)

(** What [reflect] shows of a struct: the field of a given name, if the
    struct has one. *)
Class Reflect (T : Type) := FieldByName : T → string → option value.

Global Instance TCPListenerType_reflect : Reflect TCPListenerType.t := λ v name,
  if bool_decide (name = "LoadBalancerId") then Some (VStr (TCPListenerType.LoadBalancerId v))
  else if bool_decide (name = "ListenerPort") then Some (VInt (TCPListenerType.ListenerPort v))
  else if bool_decide (name = "BackendServerPort") then Some (VInt (TCPListenerType.BackendServerPort v))
  else if bool_decide (name = "Bandwidth") then Some (VInt (TCPListenerType.Bandwidth v))
  else if bool_decide (name = "Scheduler") then Some (VStr (TCPListenerType.Scheduler v))
  else if bool_decide (name = "PersistenceTimeout") then Some (VInt (TCPListenerType.PersistenceTimeout v))
  else if bool_decide (name = "HealthCheckType") then Some (VStr (TCPListenerType.HealthCheckType v))
  else if bool_decide (name = "HealthCheckDomain") then Some (VStr (TCPListenerType.HealthCheckDomain v))
  else if bool_decide (name = "HealthCheckURI") then Some (VStr (TCPListenerType.HealthCheckURI v))
  else if bool_decide (name = "HealthCheckConnectPort") then Some (VInt (TCPListenerType.HealthCheckConnectPort v))
  else if bool_decide (name = "HealthyThreshold") then Some (VInt (TCPListenerType.HealthyThreshold v))
  else if bool_decide (name = "UnhealthyThreshold") then Some (VInt (TCPListenerType.UnhealthyThreshold v))
  else if bool_decide (name = "HealthCheckConnectTimeout") then Some (VInt (TCPListenerType.HealthCheckConnectTimeout v))
  else if bool_decide (name = "HealthCheckInterval") then Some (VInt (TCPListenerType.HealthCheckInterval v))
  else if bool_decide (name = "HealthCheckHttpCode") then Some (VStr (TCPListenerType.HealthCheckHttpCode v))
  else None.

Global Instance UDPListenerType_reflect : Reflect UDPListenerType.t := λ v name,
  if bool_decide (name = "LoadBalancerId") then Some (VStr (UDPListenerType.LoadBalancerId v))
  else if bool_decide (name = "ListenerPort") then Some (VInt (UDPListenerType.ListenerPort v))
  else if bool_decide (name = "BackendServerPort") then Some (VInt (UDPListenerType.BackendServerPort v))
  else if bool_decide (name = "Bandwidth") then Some (VInt (UDPListenerType.Bandwidth v))
  else if bool_decide (name = "PersistenceTimeout") then Some (VInt (UDPListenerType.PersistenceTimeout v))
  else if bool_decide (name = "HealthCheckConnectTimeout") then Some (VInt (UDPListenerType.HealthCheckConnectTimeout v))
  else if bool_decide (name = "HealthCheckInterval") then Some (VInt (UDPListenerType.HealthCheckInterval v))
  else None.

Global Instance HTTPListenerType_reflect : Reflect HTTPListenerType.t := λ v name,
  if bool_decide (name = "LoadBalancerId") then Some (VStr (HTTPListenerType.LoadBalancerId v))
  else if bool_decide (name = "ListenerPort") then Some (VInt (HTTPListenerType.ListenerPort v))
  else if bool_decide (name = "BackendServerPort") then Some (VInt (HTTPListenerType.BackendServerPort v))
  else if bool_decide (name = "Bandwidth") then Some (VInt (HTTPListenerType.Bandwidth v))
  else if bool_decide (name = "Scheduler") then Some (VStr (HTTPListenerType.Scheduler v))
  else if bool_decide (name = "HealthCheck") then Some (VStr (HTTPListenerType.HealthCheck v))
  else if bool_decide (name = "StickySession") then Some (VStr (HTTPListenerType.StickySession v))
  else if bool_decide (name = "StickySessionType") then Some (VStr (HTTPListenerType.StickySessionType v))
  else if bool_decide (name = "CookieTimeout") then Some (VInt (HTTPListenerType.CookieTimeout v))
  else if bool_decide (name = "Cookie") then Some (VStr (HTTPListenerType.Cookie v))
  else if bool_decide (name = "HealthCheckDomain") then Some (VStr (HTTPListenerType.HealthCheckDomain v))
  else if bool_decide (name = "HealthCheckURI") then Some (VStr (HTTPListenerType.HealthCheckURI v))
  else if bool_decide (name = "HealthCheckConnectPort") then Some (VInt (HTTPListenerType.HealthCheckConnectPort v))
  else if bool_decide (name = "HealthyThreshold") then Some (VInt (HTTPListenerType.HealthyThreshold v))
  else if bool_decide (name = "UnhealthyThreshold") then Some (VInt (HTTPListenerType.UnhealthyThreshold v))
  else if bool_decide (name = "HealthCheckTimeout") then Some (VInt (HTTPListenerType.HealthCheckTimeout v))
  else if bool_decide (name = "HealthCheckInterval") then Some (VInt (HTTPListenerType.HealthCheckInterval v))
  else if bool_decide (name = "HealthCheckHttpCode") then Some (VStr (HTTPListenerType.HealthCheckHttpCode v))
  else None.

(** The fields of the embedded http block are promoted. *)
Global Instance HTTPSListenerType_reflect : Reflect HTTPSListenerType.t := λ v name,
  if bool_decide (name = "ServerCertificateId") then Some (VStr (HTTPSListenerType.ServerCertificateId v))
  else FieldByName (HTTPSListenerType.HTTPListenerType v) name.

(** One guarded copy of [setListenerAttribute]: when the struct has the
    field, its value is asserted to the expected type and stored under
    [key]; a failed assertion panics. *)
Definition copyInt {T} `{Reflect T} (listen : T) (field key : string)
    (listener : attrs) : option attrs :=
  match FieldByName listen field with
  | Some val => n ← as_int val; Some (<[key := VInt n]> listener)
  | None => Some listener
  end.

Definition copyStr {T} `{Reflect T} (listen : T) (field key : string)
    (listener : attrs) : option attrs :=
  match FieldByName listen field with
  | Some val => s ← as_str val; Some (<[key := VStr s]> listener)
  | None => Some listener
  end.

(** [setListenerAttribute]: the copies in the order of the source, the
    protocol tag stored between the scheduler and the health-check flag. *)
Definition setListenerAttribute {T} `{Reflect T} (listen : T) (protocol : string)
  : option attrs :=
  listener ← copyInt listen "BackendServerPort" "instance_port" ∅;
  listener ← copyInt listen "ListenerPort" "lb_port" listener;
  listener ← copyInt listen "Bandwidth" "bandwidth" listener;
  listener ← copyStr listen "Scheduler" "scheduler" listener;
  listener ← Some (<["lb_protocol" := VStr protocol]> listener);
  listener ← copyStr listen "HealthCheck" "health_check" listener;
  listener ← copyStr listen "StickySession" "sticky_session" listener;
  listener ← copyStr listen "StickySessionType" "sticky_session_type" listener;
  listener ← copyInt listen "CookieTimeout" "cookie_timeout" listener;
  listener ← copyStr listen "Cookie" "cookie" listener;
  listener ← copyInt listen "PersistenceTimeout" "persistence_timeout" listener;
  listener ← copyStr listen "HealthCheckType" "health_check_type" listener;
  listener ← copyStr listen "HealthCheckDomain" "health_check_domain" listener;
  listener ← copyInt listen "HealthCheckConnectPort" "health_check_connect_port" listener;
  listener ← copyStr listen "HealthCheckURI" "health_check_uri" listener;
  listener ← copyInt listen "HealthyThreshold" "healthy_threshold" listener;
  listener ← copyInt listen "UnhealthyThreshold" "unhealthy_threshold" listener;
  listener ← copyInt listen "HealthCheckTimeout" "health_check_timeout" listener;
  listener ← copyInt listen "HealthCheckInterval" "health_check_interval" listener;
  listener ← copyStr listen "HealthCheckHttpCode" "health_check_http_code" listener;
  listener ← copyStr listen "ServerCertificateId" "ssl_certificate_id" listener;
  Some listener.

(** Modelled from the spec: the protocol tags [Http], [Https], [Tcp] and
    [Udp] handed to the normalizer are declared outside this file; the
    protocol of a listener is one of tcp, udp, http, https. *)
Definition Http : string := "http".
Definition Https : string := "https".
Definition Tcp : string := "tcp".
Definition Udp : string := "udp".

(** A key of the canonical map read as a field: a key the map lacks is the
    zero value of the field. *)
Definition getInt (m : attrs) (key : string) : Z :=
  default 0 (m !! key ≫= as_int).

Definition getStr (m : attrs) (key : string) : string :=
  default "" (m !! key ≫= as_str).

(** Modelled from the spec: the canonical Listener a normalized map stands
    for; [expandListeners] is declared outside this file. Each field is read
    under its schema key, and is zero-valued where the map lacks the key. *)
Definition toListener (m : attrs) : Listener :=
  {| InstancePort := getInt m "instance_port";
     LoadBalancerPort := getInt m "lb_port";
     Protocol := getStr m "lb_protocol";
     Bandwidth := getInt m "bandwidth";
     Scheduler := getStr m "scheduler";
     StickySession := getStr m "sticky_session";
     StickySessionType := getStr m "sticky_session_type";
     CookieTimeout := getInt m "cookie_timeout";
     Cookie := getStr m "cookie";
     PersistenceTimeout := getInt m "persistence_timeout";
     HealthCheck := getStr m "health_check";
     HealthCheckType := getStr m "health_check_type";
     HealthCheckDomain := getStr m "health_check_domain";
     HealthCheckURI := getStr m "health_check_uri";
     HealthCheckConnectPort := getInt m "health_check_connect_port";
     HealthyThreshold := getInt m "healthy_threshold";
     UnhealthyThreshold := getInt m "unhealthy_threshold";
     HealthCheckTimeout := getInt m "health_check_timeout";
     HealthCheckInterval := getInt m "health_check_interval";
     HealthCheckHttpCode := getStr m "health_check_http_code";
     SSLCertificateId := getStr m "ssl_certificate_id" |}.

(** The round trip of a TCP listener: its create arguments read back as the
    attributes of the listener and normalized under the tcp tag. *)
Definition roundTripTcp (loadBalancerId : string) (listener : Listener)
  : option Listener :=
  toListener <$> setListenerAttribute (getTcpListenerArgs loadBalancerId listener) Tcp.

Definition roundTripUdp (loadBalancerId : string) (listener : Listener)
  : option Listener :=
  toListener <$> setListenerAttribute (getUdpListenerArgs loadBalancerId listener) Udp.

(** The http and https round trips start from a listener the validator
    accepts; a rejected listener has no request to read back. *)
Definition roundTripHttp (loadBalancerId : string) (listener : Listener)
  : option Listener :=
  match getHttpListenerArgs loadBalancerId listener with
  | (args, None) => toListener <$> setListenerAttribute args Http
  | (_, Some _) => None
  end.

Definition roundTripHttps (loadBalancerId : string) (listener : Listener)
  : option Listener :=
  match getHttpListenerType loadBalancerId listener with
  | (listenerType, None) =>
      if bool_decide (SSLCertificateId listener = "") then None
      else toListener <$> setListenerAttribute
             {| HTTPSListenerType.HTTPListenerType := listenerType;
                HTTPSListenerType.ServerCertificateId := SSLCertificateId listener |}
             Https
  | (_, Some _) => None
  end.

(** ** Auxiliary notions for the properties *)

(** The poll and the start of a listener. *)
Definition waitCall (defaultTimeout : Z) (id : string) (l : Listener) : call :=
  WaitForListenerAsyn id (LoadBalancerPort l) (ToUpper (Protocol l))
    slb.Stopped defaultTimeout.

Definition startCall (id : string) (l : Listener) : call :=
  StartLoadBalancerListener id (LoadBalancerPort l).

(** The rule of the health check passes: the flag is not on, or no detail
    is missing. *)
Definition healthCheckPasses (l : Listener) : Prop :=
  HealthCheck l ≠ slb.OnFlag ∨ healthCheckEmpty l = false.

(** A delete that went through. *)
Definition deleted (ev : event) : Prop := is_delete ev.1 = true ∧ ev.2 = None.

(** The runs of [createListener]: the calls are the create call if the
    dispatch made one, then the poll if the create went through, then the
    start if the poll did. *)
Inductive createListenerRun {W : Type} (defaultTimeout : Z) (conn : Client W)
    (id : string) (l : Listener) : option error → list event → Prop :=
| run_stopped_early (t0 : list event) (err : error) :
    (t0 = [] ∨ ∃ c, is_create c = true ∧ t0 = [(c, Some err)]) →
    createListenerRun defaultTimeout conn id l (Some err) t0
| run_poll_failed (t0 : list event) (err : error) :
    (t0 = [] ∨ ∃ c, is_create c = true ∧ t0 = [(c, None)]) →
    createListenerRun defaultTimeout conn id l
      (Some (Wrapf "WaitForListener stopped got error: " err))
      (t0 ++ [(waitCall defaultTimeout id l, Some err)])
| run_started (t0 : list event) (started : option error) :
    (t0 = [] ∨ ∃ c, is_create c = true ∧ t0 = [(c, None)]) →
    createListenerRun defaultTimeout conn id l started
      (t0 ++ [(waitCall defaultTimeout id l, None); (startCall id l, started)]).

(** ** Sample listeners, sets and services *)

(** Sample services: one that answers every call with [nil], and one that
    answers from a script, call by call. *)
Definition okClient : Client unit := {| invoke := λ _ w, (None, w) |}.

Definition scriptClient : Client (list (option error)) :=
  {| invoke := λ _ w, match w with
                      | [] => (None, [])
                      | r :: rest => (r, rest)
                      end |}.

(** A plain http listener on port 80, health check and sticky session off. *)
Definition httpListener : Listener :=
  {| InstancePort := 8080; LoadBalancerPort := 80; Protocol := "http";
     Bandwidth := -1; Scheduler := "wrr";
     StickySession := "off"; StickySessionType := ""; CookieTimeout := 0;
     Cookie := ""; PersistenceTimeout := 0;
     HealthCheck := "off"; HealthCheckType := "";
     HealthCheckDomain := ""; HealthCheckURI := "";
     HealthCheckConnectPort := 0; HealthyThreshold := 0;
     UnhealthyThreshold := 0; HealthCheckTimeout := 0;
     HealthCheckInterval := 0; HealthCheckHttpCode := "";
     SSLCertificateId := "" |}.

(** The listener with its health check switched on and every detail but the
    URI filled in, and the same with the URI too. *)
Definition withHealthCheck (uri : string) (l : Listener) : Listener :=
  {| InstancePort := InstancePort l; LoadBalancerPort := LoadBalancerPort l;
     Protocol := Protocol l; Bandwidth := Bandwidth l; Scheduler := Scheduler l;
     StickySession := StickySession l; StickySessionType := StickySessionType l;
     CookieTimeout := CookieTimeout l; Cookie := Cookie l;
     PersistenceTimeout := PersistenceTimeout l;
     HealthCheck := "on"; HealthCheckType := HealthCheckType l;
     HealthCheckDomain := "example.org"; HealthCheckURI := uri;
     HealthCheckConnectPort := 8080; HealthyThreshold := 3;
     UnhealthyThreshold := 3; HealthCheckTimeout := 5;
     HealthCheckInterval := 2; HealthCheckHttpCode := "http_2xx";
     SSLCertificateId := SSLCertificateId l |}.

(** The listener with its sticky session switched on. *)
Definition withSticky (ty : string) (timeout : Z) (cookie : string) (l : Listener)
  : Listener :=
  {| InstancePort := InstancePort l; LoadBalancerPort := LoadBalancerPort l;
     Protocol := Protocol l; Bandwidth := Bandwidth l; Scheduler := Scheduler l;
     StickySession := "on"; StickySessionType := ty;
     CookieTimeout := timeout; Cookie := cookie;
     PersistenceTimeout := PersistenceTimeout l;
     HealthCheck := HealthCheck l; HealthCheckType := HealthCheckType l;
     HealthCheckDomain := HealthCheckDomain l; HealthCheckURI := HealthCheckURI l;
     HealthCheckConnectPort := HealthCheckConnectPort l;
     HealthyThreshold := HealthyThreshold l;
     UnhealthyThreshold := UnhealthyThreshold l;
     HealthCheckTimeout := HealthCheckTimeout l;
     HealthCheckInterval := HealthCheckInterval l;
     HealthCheckHttpCode := HealthCheckHttpCode l;
     SSLCertificateId := SSLCertificateId l |}.

(** The listener under another protocol and certificate. *)
Definition withProtocol (protocol cert : string) (l : Listener) : Listener :=
  {| InstancePort := InstancePort l; LoadBalancerPort := LoadBalancerPort l;
     Protocol := protocol; Bandwidth := Bandwidth l; Scheduler := Scheduler l;
     StickySession := StickySession l; StickySessionType := StickySessionType l;
     CookieTimeout := CookieTimeout l; Cookie := Cookie l;
     PersistenceTimeout := PersistenceTimeout l;
     HealthCheck := HealthCheck l; HealthCheckType := HealthCheckType l;
     HealthCheckDomain := HealthCheckDomain l; HealthCheckURI := HealthCheckURI l;
     HealthCheckConnectPort := HealthCheckConnectPort l;
     HealthyThreshold := HealthyThreshold l;
     UnhealthyThreshold := UnhealthyThreshold l;
     HealthCheckTimeout := HealthCheckTimeout l;
     HealthCheckInterval := HealthCheckInterval l;
     HealthCheckHttpCode := HealthCheckHttpCode l;
     SSLCertificateId := cert |}.

(** A tcp listener with an http health check, every tcp field set and the
    fields of the other protocols zero. *)
Definition tcpListener : Listener :=
  {| InstancePort := 8080; LoadBalancerPort := 22; Protocol := "tcp";
     Bandwidth := 10; Scheduler := "wrr";
     StickySession := ""; StickySessionType := ""; CookieTimeout := 0;
     Cookie := ""; PersistenceTimeout := 30;
     HealthCheck := ""; HealthCheckType := "http";
     HealthCheckDomain := "example.org"; HealthCheckURI := "/ping";
     HealthCheckConnectPort := 8080; HealthyThreshold := 3;
     UnhealthyThreshold := 3; HealthCheckTimeout := 5;
     HealthCheckInterval := 2; HealthCheckHttpCode := "http_2xx";
     SSLCertificateId := "" |}.

(** Two blocks of one tcp listener: the protocol in either case, and every
    field outside the identity changed. *)
Definition block1 : attrs :=
  <["instance_port" := VInt 8080]> (<["lb_port" := VInt 80]>
  (<["lb_protocol" := VStr "TCP"]> (<["bandwidth" := VInt (-1)]>
  (<["scheduler" := VStr "wrr"]> (<["persistence_timeout" := VInt 0]> ∅))))).

Definition block2 : attrs :=
  <["instance_port" := VInt 8080]> (<["lb_port" := VInt 80]>
  (<["lb_protocol" := VStr "tcp"]> (<["bandwidth" := VInt (-1)]>
  (<["scheduler" := VStr "wlc"]> (<["health_check_timeout" := VInt 5]> ∅))))).

(** A desired and a current set: [block1] and [block2] are one listener
    under the fingerprint, the http block is only desired, the udp block
    only current. *)
Definition blockHttp : attrs :=
  <["instance_port" := VInt 8080]> (<["lb_port" := VInt 443]>
  (<["lb_protocol" := VStr "http"]> (<["bandwidth" := VInt 10]> ∅))).

Definition blockUdp : attrs :=
  <["instance_port" := VInt 53]> (<["lb_port" := VInt 53]>
  (<["lb_protocol" := VStr "udp"]> (<["bandwidth" := VInt (-1)]> ∅))).

Definition desired0 : gmap Z attrs :=
  default ∅ (SchemaSet.NewSet resourceAliyunSlbListenerHash [block1; blockHttp]).

Definition current0 : gmap Z attrs :=
  default ∅ (SchemaSet.NewSet resourceAliyunSlbListenerHash [block2; blockUdp]).

(** The desired set that keeps neither current listener. *)
Definition desired1 : gmap Z attrs :=
  default ∅ (SchemaSet.NewSet resourceAliyunSlbListenerHash [blockHttp]).

(** ** The read path: [readListerners] *)

(** The part of [slb.LoadBalancerType] the read path uses. *)
Record LoadBalancerType := {
  LoadBalancerId : string;
  ListenerPorts : list Z
}.

(** The four attribute reads of the client, over a service in state [W]:
    each answers with the attributes of the listener on a port, which may be
    [nil], and an error, which may be [nil]. The attributes come in the
    struct of the listener's protocol. *)
Record Reader (W : Type) := {
  DescribeLoadBalancerHTTPListenerAttribute :
    string → Z → W → (option HTTPListenerType.t * option error) * W;
  DescribeLoadBalancerHTTPSListenerAttribute :
    string → Z → W → (option HTTPSListenerType.t * option error) * W;
  DescribeLoadBalancerTCPListenerAttribute :
    string → Z → W → (option TCPListenerType.t * option error) * W;
  DescribeLoadBalancerUDPListenerAttribute :
    string → Z → W → (option UDPListenerType.t * option error) * W
}.
Arguments DescribeLoadBalancerHTTPListenerAttribute {W} _ _ _ _.
Arguments DescribeLoadBalancerHTTPSListenerAttribute {W} _ _ _ _.
Arguments DescribeLoadBalancerTCPListenerAttribute {W} _ _ _ _.
Arguments DescribeLoadBalancerUDPListenerAttribute {W} _ _ _ _.

(** How a read ends: with the listeners collected, with an error (the Go
    function then returns a [nil] slice), or in the panic of a failed type
    assertion inside the normalizer. *)
Inductive outcome (A : Type) :=
| Done (a : A)
| Failed (err : error)
| Panicked.
Arguments Done {A} _.
Arguments Failed {A} _.
Arguments Panicked {A}.

Section Reading.
Context {W : Type}.
(** [IsExceptedError] and the error code [UnsupportedProtocalPort] are
    declared outside this file. *)
Variable IsExceptedError : error → string → bool.
Variable UnsupportedProtocalPort : string.

(** One of the four blocks in the loop of [readListerners]: the describe
    call, the return on an error that is not the excepted one, and the
    normalized attributes appended when the call gave any. *)
Definition describeInto {T} `{Reflect T}
    (describe : W → (option T * option error) * W) (label : string)
    (protocol : string) (listeners : list attrs) (w : W)
  : outcome (list attrs) * W :=
  let '((ls, err), w1) := describe w in
  let appended :=
    match ls with
    | Some attributes =>
        match setListenerAttribute attributes protocol with
        | Some listener => Done (listeners ++ [listener])
        | None => Panicked
        end
    | None => Done listeners
    end in
  match err with
  | Some e =>
      if negb (IsExceptedError e UnsupportedProtocalPort)
      then (Failed (Wrapf label e), w1)
      else (appended, w1)
  | None => (appended, w1)
  end.

(** The body of the loop for one port: http, https, tcp, udp in turn. *)
Definition readPort (conn : Reader W) (id : string) (port : Z)
    (listeners : list attrs) (w : W) : outcome (list attrs) * W :=
  match describeInto (DescribeLoadBalancerHTTPListenerAttribute conn id port)
          "Error DescribeLoadBalancerHTTPListenerAttribute: " Http listeners w with
  | (Done listeners, w) =>
    match describeInto (DescribeLoadBalancerHTTPSListenerAttribute conn id port)
            "Error DescribeLoadBalancerHTTPSListenerAttribute: " Https listeners w with
    | (Done listeners, w) =>
      match describeInto (DescribeLoadBalancerTCPListenerAttribute conn id port)
              "Error DescribeLoadBalancerTCPListenerAttribute: " Tcp listeners w with
      | (Done listeners, w) =>
          describeInto (DescribeLoadBalancerUDPListenerAttribute conn id port)
            "Error DescribeLoadBalancerUDPListenerAttribute: " Udp listeners w
      | stop => stop
      end
    | stop => stop
    end
  | stop => stop
  end.

(** The loop over the ports, from the listeners collected so far. *)
Fixpoint readPorts (conn : Reader W) (id : string) (ports : list Z)
    (listeners : list attrs) (w : W) : outcome (list attrs) * W :=
  match ports with
  | [] => (Done listeners, w)
  | port :: rest =>
      match readPort conn id port listeners w with
      | (Done listeners, w) => readPorts conn id rest listeners w
      | stop => stop
      end
  end.

(** [readListerners]. *)
Definition readListerners (conn : Reader W) (loadBalancer : LoadBalancerType)
    (w : W) : outcome (list attrs) * W :=
  readPorts conn (LoadBalancerId loadBalancer) (ListenerPorts loadBalancer) [] w.
(** What the listeners collected by a read look like: they extend the ones
    there were by maps tagged with one of the four protocols. *)
Definition tagged (m : attrs) : Prop :=
  m !! "lb_protocol" ∈ [Some (VStr "http"); Some (VStr "https");
                         Some (VStr "tcp"); Some (VStr "udp")].

(** What a read that stops with an error returns: the error of a describe
    call that is not the excepted one, under the label of that call. *)
Definition labelled (err : error) : Prop :=
  ∃ label e,
    err = Wrapf label e ∧
    IsExceptedError e UnsupportedProtocalPort = false ∧
    label ∈ ["Error DescribeLoadBalancerHTTPListenerAttribute: ";
             "Error DescribeLoadBalancerHTTPSListenerAttribute: ";
             "Error DescribeLoadBalancerTCPListenerAttribute: ";
             "Error DescribeLoadBalancerUDPListenerAttribute: "].

(** The outcome of a read step that started from [listeners]: at most [n]
    more listeners, all tagged; or a labelled error; never a panic. *)
Definition grows (n : nat) (listeners : list attrs)
    (o : outcome (list attrs)) : Prop :=
  match o with
  | Done listeners' =>
      ∃ new, listeners' = listeners ++ new ∧ (length new ≤ n)%nat ∧
             Forall tagged new
  | Failed err => labelled err
  | Panicked => False
  end.

(** A describe call that found nothing: no attributes, and no error or the
    excepted one. *)
Definition foundNothing {T : Type} (answer : (option T * option error) * W)
  : Prop :=
  answer.1.1 = None ∧
  ∀ e, answer.1.2 = Some e → IsExceptedError e UnsupportedProtocalPort = true.

(** The failure of a read, by the describe call it stopped on. *)
Definition failedOn (conn : Reader W) (id : string) (port : Z) (w0 : W)
    (e err : error) : Prop :=
  (err = Wrapf "Error DescribeLoadBalancerHTTPListenerAttribute: " e ∧
   (DescribeLoadBalancerHTTPListenerAttribute conn id port w0).1.2 = Some e) ∨
  (err = Wrapf "Error DescribeLoadBalancerHTTPSListenerAttribute: " e ∧
   (DescribeLoadBalancerHTTPSListenerAttribute conn id port w0).1.2 = Some e) ∨
  (err = Wrapf "Error DescribeLoadBalancerTCPListenerAttribute: " e ∧
   (DescribeLoadBalancerTCPListenerAttribute conn id port w0).1.2 = Some e) ∨
  (err = Wrapf "Error DescribeLoadBalancerUDPListenerAttribute: " e ∧
   (DescribeLoadBalancerUDPListenerAttribute conn id port w0).1.2 = Some e).

End Reading.

(** ** Further auxiliary notions and samples *)

(** The copies of [setListenerAttribute]: the struct field read and the key
    written, in the order of the source. *)
Definition attributeTable : list (string * string) :=
  [("BackendServerPort", "instance_port"); ("ListenerPort", "lb_port");
   ("Bandwidth", "bandwidth"); ("Scheduler", "scheduler");
   ("HealthCheck", "health_check"); ("StickySession", "sticky_session");
   ("StickySessionType", "sticky_session_type");
   ("CookieTimeout", "cookie_timeout"); ("Cookie", "cookie");
   ("PersistenceTimeout", "persistence_timeout");
   ("HealthCheckType", "health_check_type");
   ("HealthCheckDomain", "health_check_domain");
   ("HealthCheckConnectPort", "health_check_connect_port");
   ("HealthCheckURI", "health_check_uri");
   ("HealthyThreshold", "healthy_threshold");
   ("UnhealthyThreshold", "unhealthy_threshold");
   ("HealthCheckTimeout", "health_check_timeout");
   ("HealthCheckInterval", "health_check_interval");
   ("HealthCheckHttpCode", "health_check_http_code");
   ("ServerCertificateId", "ssl_certificate_id")].

(** A map with [key] set to the value, if there is one. *)
Definition put (key : string) (v : option value) (m : attrs) : attrs :=
  match v with
  | Some x => <[key := x]> m
  | None => m
  end.

(** An old and a new set holding the same listener under the fingerprint,
    with different schedulers and protocol spelling. *)
Definition currentSame : gmap Z attrs :=
  default ∅ (SchemaSet.NewSet resourceAliyunSlbListenerHash [block2]).

Definition desiredSame : gmap Z attrs :=
  default ∅ (SchemaSet.NewSet resourceAliyunSlbListenerHash [block1]).

(** The error of a port that has no listener of the asked protocol, and the
    test that recognizes it by its code. *)
Definition unsupported : error := ApiError "UnsupportedProtocalPort".

Definition isCode (err : error) (code : string) : bool :=
  match err with
  | ApiError c => bool_decide (c = code)
  | _ => false
  end.

(** A service with one http listener on port 80 and nothing else: every
    other read answers with the unsupported-protocol error. *)
Definition httpOnlyReader : Reader unit :=
  {| DescribeLoadBalancerHTTPListenerAttribute := λ id port w,
       if bool_decide (port = 80)
       then (Some (getHttpListenerType id httpListener).1, None, w)
       else (None, Some unsupported, w);
     DescribeLoadBalancerHTTPSListenerAttribute := λ _ _ w, (None, Some unsupported, w);
     DescribeLoadBalancerTCPListenerAttribute := λ _ _ w, (None, Some unsupported, w);
     DescribeLoadBalancerUDPListenerAttribute := λ _ _ w, (None, Some unsupported, w) |}.

(** A load balancer with listeners announced on two ports. *)
Definition sampleBalancer : LoadBalancerType :=
  {| LoadBalancerId := "lb-1"; ListenerPorts := [80; 443] |}.

(** A service without any listener. *)
Definition emptyReader : Reader unit :=
  {| DescribeLoadBalancerHTTPListenerAttribute := λ _ _ w, (None, Some unsupported, w);
     DescribeLoadBalancerHTTPSListenerAttribute := λ _ _ w, (None, Some unsupported, w);
     DescribeLoadBalancerTCPListenerAttribute := λ _ _ w, (None, None, w);
     DescribeLoadBalancerUDPListenerAttribute := λ _ _ w, (None, Some unsupported, w) |}.

(** A service whose tcp read breaks down. *)
Definition brokenTcpReader : Reader unit :=
  {| DescribeLoadBalancerHTTPListenerAttribute := λ id port w,
       (Some (getHttpListenerType id httpListener).1, None, w);
     DescribeLoadBalancerHTTPSListenerAttribute := λ _ _ w, (None, Some unsupported, w);
     DescribeLoadBalancerTCPListenerAttribute := λ _ _ w,
       (None, Some (ApiError "ServiceUnavailable"), w);
     DescribeLoadBalancerUDPListenerAttribute := λ _ _ w, (None, Some unsupported, w) |}.

(** * Properties *)

(** ** Fingerprint and diff *)

(** The checksum on the standard check string of CRC-32. *)
Example ChecksumIEEE_check : ChecksumIEEE "123456789" = 0xCBF43926.
Proof. reflexivity. Qed.

(** The text hashed for [block1], and its fingerprint. *)
Example fingerprint_block1 :
  fingerprint block1 = Some (hashcode_String "8080-80-tcp--1-").
Proof. reflexivity. Qed.

Section SchemaSetFacts.
Context {A : Type} (F : A → option Z).

Lemma List_elem (s : gmap Z A) (x : A) :
  x ∈ SchemaSet.List s ↔ ∃ k, s !! k = Some x.
Proof.
  unfold SchemaSet.List. rewrite list_elem_of_fmap. split.
  - intros [[k v] [-> Hin]]. exists k. by apply elem_of_map_to_list.
  - intros [k Hk]. exists (k, x). split; [done|]. by apply elem_of_map_to_list.
Qed.

Lemma add_wf (item : A) (s s' : gmap Z A) :
  SchemaSet.wf F s → SchemaSet.add F item s = Some s' → SchemaSet.wf F s'.
Proof.
  unfold SchemaSet.add. intros Hwf Hadd.
  destruct (SchemaSet.hash F item) as [code|] eqn:Hcode; simplify_eq/=.
  destruct (s !! code) eqn:Hs; [done|].
  intros k v. rewrite lookup_insert. case_decide; [|apply Hwf].
  intros; simplify_eq. done.
Qed.

Lemma NewSet_from_wf (items : list A) (acc : option (gmap Z A)) (s : gmap Z A) :
  (∀ a, acc = Some a → SchemaSet.wf F a) →
  foldl (λ acc item, acc ≫= SchemaSet.add F item) acc items = Some s →
  SchemaSet.wf F s.
Proof.
  revert acc. induction items as [|item items IH]; intros acc Hacc; simpl.
  - intros ->. by apply Hacc.
  - apply IH. intros a Ha. destruct acc as [a0|]; [|done].
    simpl in Ha. eapply add_wf; [|exact Ha]. by apply Hacc.
Qed.

(** A set built by [NewSet] stores every item under its own code. *)
Lemma NewSet_wf (items : list A) (s : gmap Z A) :
  SchemaSet.NewSet F items = Some s → SchemaSet.wf F s.
Proof.
  apply NewSet_from_wf. intros a [= <-] k v. by rewrite lookup_empty.
Qed.

(** The listed difference: the items of [s] whose code no item of [other]
    has. *)
Lemma Difference_elem (s other : gmap Z A) (x : A) :
  SchemaSet.wf F s → SchemaSet.wf F other →
  x ∈ SchemaSet.List (SchemaSet.Difference s other) ↔
  x ∈ SchemaSet.List s ∧
  ∀ y, y ∈ SchemaSet.List other → SchemaSet.hash F y ≠ SchemaSet.hash F x.
Proof.
  intros Hs Ho. rewrite !List_elem. unfold SchemaSet.Difference. split.
  - intros [k Hk]. apply lookup_difference_Some in Hk as [Hk Hnone].
    split; [by exists k|]. intros y [k' Hy]%List_elem Heq.
    rewrite (Hs _ _ Hk), (Ho _ _ Hy) in Heq. simplify_eq.
  - intros [[k Hk] Hfresh]. exists k. apply lookup_difference_Some.
    split; [done|]. destruct (other !! k) as [y|] eqn:Hy; [|done].
    exfalso. apply (Hfresh y); [apply List_elem; by exists k|].
    by rewrite (Hs _ _ Hk), (Ho _ _ Hy).
Qed.

Lemma Difference_self (s : gmap Z A) :
  SchemaSet.List (SchemaSet.Difference s s) = [].
Proof.
  unfold SchemaSet.List, SchemaSet.Difference.
  replace (s ∖ s) with (∅ : gmap Z A); [by rewrite map_to_list_empty|].
  apply map_eq. intros k. rewrite lookup_empty. symmetry.
  apply lookup_difference_None. destruct (s !! k); [right; eauto | by left].
Qed.
End SchemaSetFacts.

(** Changing a key outside the five identity keys leaves the hash alone. *)
Lemma hash_insert_other (m : attrs) (key : string) (v : value) :
  key ∉ ["instance_port"; "lb_port"; "lb_protocol"; "bandwidth"; "ssl_certificate_id"] →
  resourceAliyunSlbListenerHash (<[key := v]> m) = resourceAliyunSlbListenerHash m.
Proof.
  intros Hk. unfold resourceAliyunSlbListenerHash.
  rewrite !lookup_insert_ne; [done|..]; intros ->; apply Hk; set_solver.
Qed.

(** C2. The fingerprint of a listener block is a function of its five
    identity fields alone: two blocks that agree on instance_port, lb_port,
    the lower-cased lb_protocol, bandwidth and ssl_certificate_id have the
    same hash, whatever their other fields hold. *)
Theorem fingerprint_identity_fields (m1 m2 : attrs) :
  m1 !! "instance_port" = m2 !! "instance_port" →
  m1 !! "lb_port" = m2 !! "lb_port" →
  ToLower <$> (m1 !! "lb_protocol" ≫= as_str) =
    ToLower <$> (m2 !! "lb_protocol" ≫= as_str) →
  m1 !! "bandwidth" = m2 !! "bandwidth" →
  m1 !! "ssl_certificate_id" = m2 !! "ssl_certificate_id" →
  resourceAliyunSlbListenerHash m1 = resourceAliyunSlbListenerHash m2.
Proof.
  intros Hip Hlp Hproto Hbw Hcert. unfold resourceAliyunSlbListenerHash.
  rewrite Hip, Hlp, Hbw, Hcert.
  destruct (m2 !! "instance_port" ≫= as_int) as [ip|]; simpl; [|done].
  destruct (m2 !! "lb_port" ≫= as_int) as [lp|]; simpl; [|done].
  destruct (m1 !! "lb_protocol" ≫= as_str) as [p1|],
    (m2 !! "lb_protocol" ≫= as_str) as [p2|]; simpl in *; try done.
  injection Hproto as ->. done.
Qed.

Lemma fingerprint_identity_fields_witness :
  block1 ≠ block2 ∧
  resourceAliyunSlbListenerHash block1 = resourceAliyunSlbListenerHash block2 ∧
  is_Some (resourceAliyunSlbListenerHash block1).
Proof.
  split; [|split].
  - intros Heq. apply (f_equal (λ m : attrs, m !! "scheduler")) in Heq.
    vm_compute in Heq. discriminate.
  - apply (fingerprint_identity_fields block1 block2); reflexivity.
  - vm_compute. eauto.
Defined.

(** C1. The diff of the update is the pair of set differences under
    fingerprint equality: [toRemove] holds the current listeners whose
    fingerprint no desired listener has, [toAdd] the desired listeners whose
    fingerprint no current listener has; a set diffed with itself gives two
    empty lists; a listener with a counterpart of equal fingerprint on the
    other side is in neither list. *)
Theorem diff_is_set_difference (D C : gmap Z attrs) :
  SchemaSet.wf resourceAliyunSlbListenerHash D →
  SchemaSet.wf resourceAliyunSlbListenerHash C →
  (∀ x, x ∈ (listenerDiff D C).1 ↔
        x ∈ SchemaSet.List C ∧
        ∀ y, y ∈ SchemaSet.List D → fingerprint y ≠ fingerprint x) ∧
  (∀ x, x ∈ (listenerDiff D C).2 ↔
        x ∈ SchemaSet.List D ∧
        ∀ y, y ∈ SchemaSet.List C → fingerprint y ≠ fingerprint x) ∧
  listenerDiff D D = ([], []) ∧
  (∀ x y, x ∈ SchemaSet.List D → y ∈ SchemaSet.List C →
          fingerprint x = fingerprint y →
          (x ∉ (listenerDiff D C).2) ∧ (y ∉ (listenerDiff D C).1)).
Proof.
  intros HD HC.
  assert (Hrem := λ x, Difference_elem resourceAliyunSlbListenerHash C D x HC HD).
  assert (Hadd := λ x, Difference_elem resourceAliyunSlbListenerHash D C x HD HC).
  unfold listenerDiff, fingerprint; simpl.
  split; [exact Hrem|]. split; [exact Hadd|]. split.
  - by rewrite !Difference_self.
  - intros x y Hx Hy Heq. split.
    + intros [_ Hfresh]%Hadd. by apply (Hfresh y).
    + intros [_ Hfresh]%Hrem. by apply (Hfresh x).
Qed.

Example listenerDiff_run : listenerDiff desired0 current0 = ([blockUdp], [blockHttp]).
Proof. vm_compute. reflexivity. Qed.

Lemma diff_is_set_difference_witness :
  SchemaSet.wf resourceAliyunSlbListenerHash desired0 ∧
  SchemaSet.wf resourceAliyunSlbListenerHash current0 ∧
  (∀ x, x ∈ (listenerDiff desired0 current0).1 ↔
        x ∈ SchemaSet.List current0 ∧
        ∀ y, y ∈ SchemaSet.List desired0 → fingerprint y ≠ fingerprint x) ∧
  listenerDiff desired0 desired0 = ([], []).
Proof.
  assert (HD : SchemaSet.wf resourceAliyunSlbListenerHash desired0).
  { apply NewSet_wf with (items := [block1; blockHttp]). vm_compute. reflexivity. }
  assert (HC : SchemaSet.wf resourceAliyunSlbListenerHash current0).
  { apply NewSet_wf with (items := [block2; blockUdp]). vm_compute. reflexivity. }
  split; [exact HD|]. split; [exact HC|].
  destruct (diff_is_set_difference desired0 current0 HD HC) as (Hrem & _ & Hself & _).
  split; [exact Hrem | exact Hself].
Defined.

(** ** The validator *)

Lemma healthCheckEmpty_true (l : Listener) :
  healthCheckEmpty l = true ↔
  HealthCheckURI l = "" ∨ HealthCheckDomain l = "" ∨
  HealthCheckConnectPort l = 0 ∨ HealthyThreshold l = 0 ∨
  UnhealthyThreshold l = 0 ∨ HealthCheckTimeout l = 0 ∨
  HealthCheckInterval l = 0 ∨ HealthCheckHttpCode l = "".
Proof.
  unfold healthCheckEmpty. rewrite !orb_true_iff, !bool_decide_eq_true. tauto.
Qed.

Lemma healthCheckEmpty_false (l : Listener) :
  healthCheckEmpty l = false ↔
  HealthCheckURI l ≠ "" ∧ HealthCheckDomain l ≠ "" ∧
  HealthCheckConnectPort l ≠ 0 ∧ HealthyThreshold l ≠ 0 ∧
  UnhealthyThreshold l ≠ 0 ∧ HealthCheckTimeout l ≠ 0 ∧
  HealthCheckInterval l ≠ 0 ∧ HealthCheckHttpCode l ≠ "".
Proof.
  unfold healthCheckEmpty. rewrite !orb_false_iff, !bool_decide_eq_false. tauto.
Qed.

(** The health-check rule comes first: with the flag on and a detail
    missing, the validator answers with the health-check kind. *)
Lemma validator_health_check (id : string) (l : Listener) :
  HealthCheck l = slb.OnFlag → healthCheckEmpty l = true →
  getHttpListenerType id l =
    (HTTPListenerType.zero,
     Some (ListenerError {| ErrType := HealthCheckErrType;
                            Err := "err: HealthCheck empty." |})).
Proof.
  intros Hon Hempty. unfold getHttpListenerType.
  by rewrite (bool_decide_eq_true_2 _ Hon), Hempty.
Qed.

Lemma healthCheckPasses_guard (l : Listener) :
  healthCheckPasses l →
  bool_decide (HealthCheck l = slb.OnFlag) && healthCheckEmpty l = false.
Proof.
  intros [Hoff | Hfull].
  - by rewrite (bool_decide_eq_false_2 _ Hoff).
  - rewrite Hfull. apply andb_false_r.
Qed.

(** Past the health-check rule a validator error is never of the
    health-check kind. *)
Lemma validator_not_health_check (id : string) (l : Listener) (e : ListenerErr) :
  healthCheckPasses l →
  (getHttpListenerType id l).2 = Some (ListenerError e) →
  ErrType e ≠ HealthCheckErrType.
Proof.
  intros Hpass. unfold getHttpListenerType.
  rewrite (healthCheckPasses_guard l Hpass).
  repeat case_bool_decide; simpl; intros [= <-]; done.
Qed.

(** ** Runs of [createListener] *)

Section CreateListenerFacts.
Context {W : Type}.
Variable defaultTimeout : Z.
Variable conn : Client W.

(** The dispatch makes no call at all, or one create call whose answer is
    its result. *)
Lemma createCall_events (id : string) (l : Listener) (w : W) :
  (createCall conn id l w).2 = [] ∨
  ∃ c, is_create c = true ∧
       (createCall conn id l w).2 = [(c, (createCall conn id l w).1.1)].
Proof.
  unfold createCall.
  destruct (bool_decide (Protocol l = ToLower "tcp")).
  { right. eexists. split; [|unfold rpc; by destruct (invoke conn _ w)]. done. }
  destruct (bool_decide (Protocol l = ToLower "http")).
  { destruct (getHttpListenerArgs id l) as [args argsErr].
    destruct (errTypeJudge argsErr); [by left|].
    right. eexists. split; [|unfold rpc; by destruct (invoke conn _ w)]. done. }
  destruct (bool_decide (Protocol l = ToLower "https")).
  { destruct (getHttpListenerType id l) as [listenerType err].
    destruct (errTypeJudge err); [by left|].
    destruct (bool_decide (SSLCertificateId l = "")); [by left|].
    right. eexists. split; [|unfold rpc; by destruct (invoke conn _ w)]. done. }
  destruct (bool_decide (Protocol l = ToLower "udp")); [|by left].
  right. eexists. split; [|unfold rpc; by destruct (invoke conn _ w)]. done.
Qed.

(** A run of [createListener], by the outcome of its three steps. *)
Lemma createListener_run (id : string) (l : Listener) (w : W) :
  createListener defaultTimeout conn id l w =
  let '(created, w0, t0) := createCall conn id l w in
  match created with
  | Some err => (Some err, w0, t0)
  | None =>
      match invoke conn (waitCall defaultTimeout id l) w0 with
      | (Some err, w1) =>
          (Some (Wrapf "WaitForListener stopped got error: " err), w1,
           t0 ++ [(waitCall defaultTimeout id l, Some err)])
      | (None, w1) =>
          let '(started, w2) := invoke conn (startCall id l) w1 in
          (started, w2, t0 ++ [(waitCall defaultTimeout id l, None); (startCall id l, started)])
      end
  end.
Proof.
  unfold createListener, bind, rpc, ret, waitCall, startCall.
  destruct (createCall conn id l w) as [[[err|] w0] t0]; simpl.
  - by rewrite List.app_nil_r.
  - destruct (invoke conn _ w0) as [[err|] w1]; simpl.
    + done.
    + by destruct (invoke conn _ w1) as [started w2].
Qed.

(** A parameter error stops the run before any call. *)
Lemma createListener_param_error (id : string) (l : Listener) (w : W) (e : error) :
  createCall conn id l w = (Some e, w, []) →
  createListener defaultTimeout conn id l w = (Some e, w, []).
Proof. intros H. by rewrite createListener_run, H. Qed.

Lemma createCall_http (id : string) (l : Listener) :
  Protocol l = "http" →
  createCall conn id l =
  let '(args, argsErr) := getHttpListenerArgs id l in
  match errTypeJudge argsErr with
  | Some paramErr => ret (Some paramErr)
  | None => rpc conn (CreateLoadBalancerHTTPListener args)
  end.
Proof. intros H. unfold createCall. by rewrite H. Qed.

Lemma createCall_https (id : string) (l : Listener) :
  Protocol l = "https" →
  createCall conn id l =
  let '(listenerType, err) := getHttpListenerType id l in
  match errTypeJudge err with
  | Some paramErr => ret (Some paramErr)
  | None =>
      if bool_decide (SSLCertificateId l = "") then
        ret (Some (Errorf "Server Certificated Id cann't be null"))
      else
        rpc conn (CreateLoadBalancerHTTPSListener
          {| HTTPSListenerType.HTTPListenerType := listenerType;
             HTTPSListenerType.ServerCertificateId := SSLCertificateId l |})
  end.
Proof. intros H. unfold createCall. by rewrite H. Qed.

(** On an http or https listener a validator error is judged and returned
    with no call made. *)
Lemma createListener_validator_error (id : string) (l : Listener) (w : W)
    (e : ListenerErr) (z : HTTPListenerType.t) :
  Protocol l = "http" ∨ Protocol l = "https" →
  getHttpListenerType id l = (z, Some (ListenerError e)) →
  createListener defaultTimeout conn id l w =
    (errTypeJudge (Some (ListenerError e)), w, []).
Proof.
  intros Hp Hv. destruct e as [kind msg].
  destruct kind; simpl; apply createListener_param_error;
    (destruct Hp as [Hp | Hp];
     [ rewrite (createCall_http _ _ Hp); unfold getHttpListenerArgs; by rewrite Hv
     | by rewrite (createCall_https _ _ Hp), Hv ]).
Qed.
End CreateListenerFacts.

(** The validator only ever fails with a [ListenerErr]. *)
Lemma validator_error_is_ListenerErr (id : string) (l : Listener) (e : error) :
  (getHttpListenerType id l).2 = Some e → ∃ le, e = ListenerError le.
Proof.
  unfold getHttpListenerType.
  destruct (bool_decide (HealthCheck l = slb.OnFlag) && healthCheckEmpty l);
    repeat case_bool_decide; simpl; intros [= <-]; eauto.
Qed.

(** C3. On an http or https listener whose health check is on, a missing
    detail (URI, domain, connect port, healthy or unhealthy threshold,
    timeout, interval, http code) makes the validator fail with the
    health-check kind, and [createListener] returns the error without a
    single call to the service; with every detail present the health-check
    rule raises no error. *)
Theorem health_check_details_required {W : Type} (defaultTimeout : Z)
    (conn : Client W) (id : string) (l : Listener) (w : W) :
  Protocol l = "http" ∨ Protocol l = "https" →
  HealthCheck l = slb.OnFlag →
  ((HealthCheckURI l = "" ∨ HealthCheckDomain l = "" ∨
    HealthCheckConnectPort l = 0 ∨ HealthyThreshold l = 0 ∨
    UnhealthyThreshold l = 0 ∨ HealthCheckTimeout l = 0 ∨
    HealthCheckInterval l = 0 ∨ HealthCheckHttpCode l = "") →
   (getHttpListenerType id l).2 =
     Some (ListenerError {| ErrType := HealthCheckErrType;
                            Err := "err: HealthCheck empty." |}) ∧
   createListener defaultTimeout conn id l w =
     (Some (Errorf "When the HealthCheck is on, then related HealthCheck parameter must have."),
      w, [])) ∧
  ((HealthCheckURI l ≠ "" ∧ HealthCheckDomain l ≠ "" ∧
    HealthCheckConnectPort l ≠ 0 ∧ HealthyThreshold l ≠ 0 ∧
    UnhealthyThreshold l ≠ 0 ∧ HealthCheckTimeout l ≠ 0 ∧
    HealthCheckInterval l ≠ 0 ∧ HealthCheckHttpCode l ≠ "") →
   ∀ e, (getHttpListenerType id l).2 = Some (ListenerError e) →
        ErrType e ≠ HealthCheckErrType).
Proof.
  intros Hp Hon. split.
  - intros Hempty%healthCheckEmpty_true.
    pose proof (validator_health_check id l Hon Hempty) as Hv.
    split; [by rewrite Hv|].
    by rewrite (createListener_validator_error defaultTimeout conn id l w _ _ Hp Hv).
  - intros Hfull%healthCheckEmpty_false e.
    apply validator_not_health_check. by right.
Qed.

Lemma health_check_details_required_witness :
  createListener 120 okClient "lb-1" (withHealthCheck "" httpListener) tt =
    (Some (Errorf "When the HealthCheck is on, then related HealthCheck parameter must have."),
     tt, []) ∧
  ∀ e, (getHttpListenerType "lb-1"
          (withSticky "" 0 "" (withHealthCheck "/ping" httpListener))).2 =
         Some (ListenerError e) →
       ErrType e ≠ HealthCheckErrType.
Proof.
  split.
  - apply (health_check_details_required 120 okClient "lb-1"
             (withHealthCheck "" httpListener) tt);
      [by left | reflexivity | by left].
  - apply (health_check_details_required 120 okClient "lb-1"
             (withSticky "" 0 "" (withHealthCheck "/ping" httpListener)) tt);
      [by left | reflexivity | repeat split; discriminate].
Defined.

(** With the details present the validator moves on to the sticky-session
    rules: here the missing session type is what it reports. *)
Example health_check_complete_run :
  (getHttpListenerType "lb-1"
     (withSticky "" 0 "" (withHealthCheck "/ping" httpListener))).2 =
  Some (ListenerError {| ErrType := StickySessionErrType;
                         Err := "err: stickySession empty." |}).
Proof. reflexivity. Qed.

(** C4, as the code has it. On a listener with the sticky session on and of
    type insert that passes the health-check rule, the validator fails with
    the cookie-timeout kind exactly when the cookie timeout is 0; any other
    timeout, a negative one included, is accepted. *)
Theorem cookie_timeout_checked_against_zero (id : string) (l : Listener) :
  StickySession l = slb.OnFlag →
  StickySessionType l = slb.InsertStickySessionType →
  healthCheckPasses l →
  ((getHttpListenerType id l).2 =
     Some (ListenerError {| ErrType := CookieTimeOutErrType;
                            Err := "err: cookieTimeout empty." |}) ↔
   CookieTimeout l = 0) ∧
  (CookieTimeout l ≠ 0 → (getHttpListenerType id l).2 = None).
Proof.
  intros Hon Hins Hpass. unfold getHttpListenerType.
  rewrite (healthCheckPasses_guard l Hpass), (bool_decide_eq_true_2 _ Hon), Hins.
  simpl. case_bool_decide as Hz; simpl.
  - split; [done|]. intros Hnz. by destruct Hnz.
  - split; [|done]. split; [discriminate | done].
Qed.

Lemma cookie_timeout_checked_against_zero_witness :
  (getHttpListenerType "lb-1" (withSticky "insert" 0 "" httpListener)).2 =
     Some (ListenerError {| ErrType := CookieTimeOutErrType;
                            Err := "err: cookieTimeout empty." |}) ∧
  (getHttpListenerType "lb-1" (withSticky "insert" 30 "" httpListener)).2 = None.
Proof.
  split.
  - apply (cookie_timeout_checked_against_zero "lb-1"
             (withSticky "insert" 0 "" httpListener));
      [reflexivity | reflexivity | left; discriminate | reflexivity].
  - apply (cookie_timeout_checked_against_zero "lb-1"
             (withSticky "insert" 30 "" httpListener));
      [reflexivity | reflexivity | left; discriminate | discriminate].
Defined.

(** Counterexample to C4 as worded: an http listener with the sticky
    session on, of type insert, and a cookie timeout of -1 passes the
    validator and is created. *)
Lemma negative_cookie_timeout_accepted :
  let l := withSticky "insert" (-1) "" httpListener in
  Protocol l = "http" ∧ StickySession l = slb.OnFlag ∧
  StickySessionType l = slb.InsertStickySessionType ∧
  ¬ (0 < CookieTimeout l) ∧
  (getHttpListenerType "lb-1" l).2 = None ∧
  createListener 120 okClient "lb-1" l tt =
    (None, tt,
     [(CreateLoadBalancerHTTPListener (getHttpListenerType "lb-1" l).1, None);
      (WaitForListenerAsyn "lb-1" 80 "HTTP" "stopped" 120, None);
      (StartLoadBalancerListener "lb-1" 80, None)]).
Proof. vm_compute. repeat split; congruence. Qed.

(** C10, as the code has it. On a listener with the sticky session on whose
    session type is set but is neither insert nor server, and which passes
    the health-check rule, the validator returns no error, whatever the
    cookie timeout and the cookie are. *)
Theorem other_sticky_type_unchecked (id : string) (l : Listener) :
  StickySession l = slb.OnFlag →
  StickySessionType l ≠ "" →
  StickySessionType l ≠ slb.InsertStickySessionType →
  StickySessionType l ≠ slb.ServerStickySessionType →
  healthCheckPasses l →
  (getHttpListenerType id l).2 = None.
Proof.
  intros Hon Hset Hins Hsrv Hpass. unfold getHttpListenerType.
  by rewrite (healthCheckPasses_guard l Hpass), (bool_decide_eq_true_2 _ Hon),
    (bool_decide_eq_false_2 _ Hset), (bool_decide_eq_false_2 _ Hins),
    (bool_decide_eq_false_2 _ Hsrv).
Qed.

Lemma other_sticky_type_unchecked_witness :
  (getHttpListenerType "lb-1" (withSticky "rewrite" 0 "" httpListener)).2 = None.
Proof.
  apply (other_sticky_type_unchecked "lb-1" (withSticky "rewrite" 0 "" httpListener));
    [reflexivity | discriminate | discriminate | discriminate | left; discriminate].
Defined.

(** Counterexample to C10 as worded: with the health check on and its URI
    missing, the validator rejects such a listener, with the health-check
    kind. *)
Lemma other_sticky_type_health_check_rejected :
  let l := withSticky "rewrite" 0 "" (withHealthCheck "" httpListener) in
  Protocol l = "http" ∧ StickySession l = slb.OnFlag ∧
  StickySessionType l ≠ "" ∧
  StickySessionType l ≠ slb.InsertStickySessionType ∧
  StickySessionType l ≠ slb.ServerStickySessionType ∧
  (getHttpListenerType "lb-1" l).2 =
    Some (ListenerError {| ErrType := HealthCheckErrType;
                           Err := "err: HealthCheck empty." |}).
Proof. vm_compute. repeat split; congruence. Qed.

(** C5, as the code has it. Creating an https listener without a
    certificate always fails, with no call made to the service. The error
    is the missing-certificate one whenever the listener passes the
    validator; when the validator rejects the listener, its own error comes
    first: the result is the message of the validator's kind, not the
    certificate one. *)
Theorem https_requires_certificate {W : Type} (defaultTimeout : Z)
    (conn : Client W) (id : string) (l : Listener) (w : W) :
  Protocol l = "https" →
  SSLCertificateId l = "" →
  (∃ e, createListener defaultTimeout conn id l w = (Some e, w, [])) ∧
  ((getHttpListenerType id l).2 = None →
   createListener defaultTimeout conn id l w =
     (Some (Errorf "Server Certificated Id cann't be null"), w, [])) ∧
  (∀ kind msg,
     (getHttpListenerType id l).2 =
       Some (ListenerError {| ErrType := kind; Err := msg |}) →
     createListener defaultTimeout conn id l w =
       (Some (Errorf
          match kind with
          | HealthCheckErrType =>
              "When the HealthCheck is on, then related HealthCheck parameter must have."
          | StickySessionErrType =>
              "When the StickySession is on, then StickySessionType parameter must have."
          | CookieTimeOutErrType =>
              "When the StickySession is on and StickySessionType is insert, then CookieTimeout parameter must have."
          | CookieErrType =>
              "When the StickySession is on and StickySessionType is server, then Cookie parameter must have."
          end), w, [])) ∧
  (∀ e, (getHttpListenerType id l).2 = Some e → ∃ kind msg,
     e = ListenerError {| ErrType := kind; Err := msg |}).
Proof.
  intros Hp Hcert.
  assert (Hrej : ∀ kind msg,
    (getHttpListenerType id l).2 =
      Some (ListenerError {| ErrType := kind; Err := msg |}) →
    createListener defaultTimeout conn id l w =
      (errTypeJudge (Some (ListenerError {| ErrType := kind; Err := msg |})),
       w, [])).
  { intros kind msg Hv.
    apply (createListener_validator_error defaultTimeout conn id l w _
             (getHttpListenerType id l).1); [by right|].
    destruct (getHttpListenerType id l) as [z err]. simpl in Hv. by subst err. }
  assert (Hkind : ∀ e, (getHttpListenerType id l).2 = Some e → ∃ kind msg,
            e = ListenerError {| ErrType := kind; Err := msg |}).
  { intros e He. destruct (validator_error_is_ListenerErr id l e He) as [[kind msg] ->].
    by exists kind, msg. }
  assert (Hcertificate : (getHttpListenerType id l).2 = None →
    createListener defaultTimeout conn id l w =
      (Some (Errorf "Server Certificated Id cann't be null"), w, [])).
  { intros Hok. apply createListener_param_error.
    rewrite (createCall_https _ _ _ Hp).
    destruct (getHttpListenerType id l) as [z err]. simpl in Hok. subst err. simpl.
    by rewrite (bool_decide_eq_true_2 _ Hcert). }
  split; [|split; [exact Hcertificate|split; [|exact Hkind]]].
  - destruct (getHttpListenerType id l).2 as [e|] eqn:Hv.
    + destruct (Hkind e eq_refl) as (kind & msg & ->).
      rewrite (Hrej kind msg eq_refl). destruct kind; simpl; eauto.
    + rewrite (Hcertificate eq_refl). eauto.
  - intros kind msg Hv. rewrite (Hrej kind msg Hv). by destruct kind.
Qed.

Lemma https_requires_certificate_witness :
  createListener 120 okClient "lb-1" (withProtocol "https" "" httpListener) tt =
    (Some (Errorf "Server Certificated Id cann't be null"), tt, []) ∧
  createListener 120 okClient "lb-1"
    (withProtocol "https" "" (withSticky "" 0 "" httpListener)) tt =
    (Some (Errorf "When the StickySession is on, then StickySessionType parameter must have."),
     tt, []).
Proof.
  split.
  - destruct (https_requires_certificate 120 okClient "lb-1"
                (withProtocol "https" "" httpListener) tt) as (_ & Hcert & _);
      [reflexivity | reflexivity |].
    apply Hcert. reflexivity.
  - destruct (https_requires_certificate 120 okClient "lb-1"
                (withProtocol "https" "" (withSticky "" 0 "" httpListener)) tt)
      as (_ & _ & Hrej & _); [reflexivity | reflexivity |].
    apply (Hrej StickySessionErrType "err: stickySession empty."). reflexivity.
Defined.

(** Counterexample to C5 as worded: an https listener without a
    certificate whose health check lacks its URI fails with the
    health-check message, not the certificate one. *)
Lemma https_validator_error_comes_first :
  let l := withProtocol "https" "" (withHealthCheck "" httpListener) in
  Protocol l = "https" ∧ SSLCertificateId l = "" ∧
  createListener 120 okClient "lb-1" l tt =
    (Some (Errorf "When the HealthCheck is on, then related HealthCheck parameter must have."),
     tt, []) ∧
  createListener 120 okClient "lb-1" l tt ≠
    (Some (Errorf "Server Certificated Id cann't be null"), tt, []).
Proof. vm_compute. repeat split; congruence. Qed.

(** ** Order of the calls *)

Lemma create_not_start (c : call) : is_create c = true → is_start c = false.
Proof. by destruct c. Qed.

Lemma create_not_delete (c : call) : is_create c = true → is_delete c = false.
Proof. by destruct c. Qed.

Lemma createListener_runs {W : Type} (defaultTimeout : Z) (conn : Client W)
    (id : string) (l : Listener) (w : W) :
  createListenerRun defaultTimeout conn id l
    (result (createListener defaultTimeout conn id l) w)
    (trace (createListener defaultTimeout conn id l) w).
Proof.
  unfold trace, result. rewrite createListener_run.
  pose proof (createCall_events conn id l w) as Hev.
  destruct (createCall conn id l w) as [[created w0] t0]; simpl in Hev.
  destruct created as [err|]; simpl.
  - by constructor.
  - destruct (invoke conn (waitCall defaultTimeout id l) w0) as [[err|] w1]; simpl.
    + by constructor.
    + destruct (invoke conn (startCall id l) w1) as [started w2]; simpl.
      by constructor.
Qed.

(** The order of the calls in a run of [createListener]: a create call that
    succeeded is followed by the poll; a start call is only made right
    after a poll that returned without error and is the last call; a failed
    poll is the result and leaves the start out. *)
Lemma createListener_order {W : Type} (defaultTimeout : Z)
    (conn : Client W) (id : string) (l : Listener) (w : W) :
  let run := createListener defaultTimeout conn id l in
  let poll := WaitForListenerAsyn id (LoadBalancerPort l)
                (ToUpper (Protocol l)) slb.Stopped defaultTimeout in
  (∀ c rest, trace run w = (c, None) :: rest → is_create c = true →
     ∃ answer rest', rest = (poll, answer) :: rest') ∧
  (∀ pre c answer post, trace run w = pre ++ (c, answer) :: post →
     is_start c = true →
     c = StartLoadBalancerListener id (LoadBalancerPort l) ∧ post = [] ∧
     ∃ pre', pre = pre' ++ [(poll, None)]) ∧
  (∀ err, (poll, Some err) ∈ trace run w →
     result run w = Some (Wrapf "WaitForListener stopped got error: " err) ∧
     Forall (λ ev : event, is_start ev.1 = false) (trace run w)).
Proof.
  intros run poll. subst run poll.
  destruct (createListener_runs defaultTimeout conn id l w)
    as [t0 err Ht0 | t0 err Ht0 | t0 started Ht0];
    unfold waitCall, startCall;
    destruct Ht0 as [-> | (c0 & Hc0 & ->)]; simpl;
    pose proof (create_not_start _ Hc0) as Hns || idtac.
  all: split; [|split].
  all: try (intros c rest Heq Hc; simplify_eq/=; eauto; fail).
  all: try (intros pre c answer post Heq Hc;
            destruct pre as [|p1 [|p2 [|p3 [|p4 pre]]]]; simplify_eq/=;
            try congruence;
            (split; [done|]; split; [done|]);
            first [ by exists [] | by eexists [_] ]).
  all: intros e He; rewrite ?elem_of_cons, ?elem_of_nil in He.
  all: intuition simplify_eq/=; try congruence.
  all: repeat constructor; done.
Qed.

(** After a poll that returned without error the start call is made: it is
    the one call that follows, and its answer is the result. *)
Lemma createListener_starts_after_stopped {W : Type} (defaultTimeout : Z)
    (conn : Client W) (id : string) (l : Listener) (w : W)
    (pre post : list event) :
  trace (createListener defaultTimeout conn id l) w =
    pre ++ (waitCall defaultTimeout id l, None) :: post →
  post = [(startCall id l, result (createListener defaultTimeout conn id l) w)].
Proof.
  destruct (createListener_runs defaultTimeout conn id l w)
    as [t0 err Ht0 | t0 err Ht0 | t0 started Ht0];
    unfold waitCall, startCall;
    destruct Ht0 as [-> | (c0 & Hc0 & ->)]; simpl; intros Heq;
    destruct pre as [|p1 [|p2 [|p3 [|p4 pre]]]]; simplify_eq/=; done.
Qed.

(** C6. In every run of [createListener]: a create call that succeeded is
    followed by the poll for the stopped status; a start call is only made
    right after a poll that returned without error, is the start of this
    listener and is the last call; when the poll fails (its timeout ran
    out) the result is the poll's error and no start call is made; when the
    poll returns without error the start call is issued next, as the last
    call, and its answer is the result; and whenever the create step
    returns without error the calls of the run are those of the create
    step, then the poll on the service it left, then, if the poll returned
    without error, the start on the service the poll left. *)
Theorem start_only_after_stopped {W : Type} (defaultTimeout : Z)
    (conn : Client W) (id : string) (l : Listener) (w : W) :
  let run := createListener defaultTimeout conn id l in
  let poll := WaitForListenerAsyn id (LoadBalancerPort l)
                (ToUpper (Protocol l)) slb.Stopped defaultTimeout in
  let start := StartLoadBalancerListener id (LoadBalancerPort l) in
  (∀ c rest, trace run w = (c, None) :: rest → is_create c = true →
     ∃ answer rest', rest = (poll, answer) :: rest') ∧
  (∀ pre c answer post, trace run w = pre ++ (c, answer) :: post →
     is_start c = true →
     c = start ∧ post = [] ∧
     ∃ pre', pre = pre' ++ [(poll, None)]) ∧
  (∀ err, (poll, Some err) ∈ trace run w →
     result run w = Some (Wrapf "WaitForListener stopped got error: " err) ∧
     Forall (λ ev : event, is_start ev.1 = false) (trace run w)) ∧
  (∀ pre post, trace run w = pre ++ (poll, None) :: post →
     post = [(start, result run w)]) ∧
  (∀ w0 t0, createCall conn id l w = (None, w0, t0) →
     trace run w =
       t0 ++ (poll, (invoke conn poll w0).1) ::
         match (invoke conn poll w0).1 with
         | None => [(start, (invoke conn start (invoke conn poll w0).2).1)]
         | Some _ => []
         end).
Proof.
  intros run poll start. subst run poll start.
  destruct (createListener_order defaultTimeout conn id l w) as (H1 & H2 & H3).
  split; [exact H1|]. split; [exact H2|]. split; [exact H3|]. split.
  - intros pre post. apply createListener_starts_after_stopped.
  - intros w0 t0 Hcall. unfold trace. rewrite createListener_run, Hcall.
    unfold waitCall, startCall.
    destruct (invoke conn _ w0) as [[err|] w1]; simpl; [done|].
    by destruct (invoke conn _ w1) as [started w2].
Qed.

(** A run that passes every step: create, poll, start. *)
Example createListener_http_run :
  createListener 120 okClient "lb-1" httpListener tt =
    (None, tt,
     [(CreateLoadBalancerHTTPListener (getHttpListenerType "lb-1" httpListener).1, None);
      (WaitForListenerAsyn "lb-1" 80 "HTTP" "stopped" 120, None);
      (StartLoadBalancerListener "lb-1" 80, None)]).
Proof. reflexivity. Qed.

(** A run whose poll times out: the create went through, the start is not
    attempted. *)
Example createListener_poll_timeout_run :
  createListener 120 scriptClient "lb-1" httpListener [None; Some (ApiError "Timeout")] =
    (Some (Wrapf "WaitForListener stopped got error: " (ApiError "Timeout")), [],
     [(CreateLoadBalancerHTTPListener (getHttpListenerType "lb-1" httpListener).1, None);
      (WaitForListenerAsyn "lb-1" 80 "HTTP" "stopped" 120, Some (ApiError "Timeout"))]).
Proof. reflexivity. Qed.

Lemma start_only_after_stopped_witness :
  trace (createListener 120 okClient "lb-1" tcpListener) tt =
    [(CreateLoadBalancerTCPListener (getTcpListenerArgs "lb-1" tcpListener), None);
     (WaitForListenerAsyn "lb-1" 22 "TCP" "stopped" 120, None);
     (StartLoadBalancerListener "lb-1" 22, None)] ∧
  trace (createListener 120 scriptClient "lb-1" tcpListener)
    [None; Some (ApiError "Timeout")] =
    [(CreateLoadBalancerTCPListener (getTcpListenerArgs "lb-1" tcpListener), None);
     (WaitForListenerAsyn "lb-1" 22 "TCP" "stopped" 120, Some (ApiError "Timeout"))].
Proof.
  split.
  - destruct (start_only_after_stopped 120 okClient "lb-1" tcpListener tt)
      as (_ & _ & _ & _ & Hrun).
    apply (Hrun tt
             [(CreateLoadBalancerTCPListener (getTcpListenerArgs "lb-1" tcpListener),
               None)]).
    reflexivity.
  - destruct (start_only_after_stopped 120 scriptClient "lb-1" tcpListener
                [None; Some (ApiError "Timeout")]) as (_ & _ & _ & _ & Hrun).
    apply (Hrun [Some (ApiError "Timeout")]
             [(CreateLoadBalancerTCPListener (getTcpListenerArgs "lb-1" tcpListener),
               None)]).
    reflexivity.
Defined.



(** ** The apply pass *)

(** If every element of [t'] satisfies [P] and [y] does not, then [y] can
    only be the last element of [t' ++ [x]]. *)
Lemma only_last_fails {A : Type} (P : A → Prop) (t' pre post : list A) (x y : A) :
  Forall P t' → ¬ P y → t' ++ [x] = pre ++ y :: post →
  pre = t' ∧ y = x ∧ post = [].
Proof.
  intros Hall Hy. revert pre.
  induction Hall as [|a t'' Ha Hall IH]; intros pre Heq; simpl in Heq.
  - destruct pre as [|p [|p' pre]]; simplify_eq/=. done.
  - destruct pre as [|p pre]; simplify_eq/=; [done|].
    destruct (IH pre) as (-> & -> & ->); done.
Qed.

(** The removal loop deletes until the first failure, which ends it. *)
Lemma removeListeners_run {W : Type} (conn : Client W) (id : string)
    (remove : list Listener) (w : W) :
  match result (removeListeners conn id remove) w with
  | None => Forall deleted (trace (removeListeners conn id remove) w)
  | Some err =>
      ∃ t' c e, trace (removeListeners conn id remove) w = t' ++ [(c, Some e)] ∧
                is_delete c = true ∧
                err = Wrapf "Failure removing outdated SLB listeners: " e ∧
                Forall deleted t'
  end.
Proof.
  revert w. induction remove as [|listener rest IH]; intros w.
  - by constructor.
  - unfold trace, result in *. simpl. unfold bind, rpc.
    destruct (invoke conn _ w) as [[e|] w1]; simpl.
    + exists [], (DeleteLoadBalancerListener id (LoadBalancerPort listener)), e.
      by repeat split.
    + specialize (IH w1).
      destruct (removeListeners conn id rest w1) as [[[err|] w2] t]; simpl in *.
      * destruct IH as (t' & c & e & -> & Hc & -> & Hall).
        exists ((DeleteLoadBalancerListener id (LoadBalancerPort listener), None) :: t'), c, e.
        repeat split; [done|]. by constructor.
      * by constructor.
Qed.

Lemma createListener_no_delete {W : Type} (defaultTimeout : Z) (conn : Client W)
    (id : string) (l : Listener) (w : W) :
  Forall (λ ev : event, is_delete ev.1 = false)
    (trace (createListener defaultTimeout conn id l) w).
Proof.
  destruct (createListener_runs defaultTimeout conn id l w)
    as [t0 err Ht0 | t0 err Ht0 | t0 started Ht0];
    destruct Ht0 as [-> | (c0 & Hc0%create_not_delete & ->)];
    by repeat constructor.
Qed.

Lemma addListeners_no_delete {W : Type} (defaultTimeout : Z) (conn : Client W)
    (id : string) (add : list Listener) (w : W) :
  Forall (λ ev : event, is_delete ev.1 = false)
    (trace (addListeners defaultTimeout conn id add) w).
Proof.
  revert w. induction add as [|listener rest IH]; intros w.
  - constructor.
  - pose proof (createListener_no_delete defaultTimeout conn id listener w) as Hc.
    unfold trace in *. simpl. unfold bind.
    destruct (createListener defaultTimeout conn id listener w) as [[[e|] w1] t1];
      simpl in *.
    + by rewrite List.app_nil_r.
    + specialize (IH w1).
      destruct (addListeners defaultTimeout conn id rest w1) as [[r w2] t2].
      apply Forall_app. by split.
Qed.

(** The two loops: a failing delete is the last call made and its error is
    the result. *)
Lemma applyListeners_delete_failure {W : Type} (defaultTimeout : Z)
    (conn : Client W) (id : string) (remove add : list Listener) (w : W)
    (pre post : list event) (c : call) (err : error) :
  trace (applyListeners defaultTimeout conn id remove add) w =
    pre ++ (c, Some err) :: post →
  is_delete c = true →
  post = [] ∧
  result (applyListeners defaultTimeout conn id remove add) w =
    Some (Wrapf "Failure removing outdated SLB listeners: " err) ∧
  Forall deleted pre.
Proof.
  pose proof (removeListeners_run conn id remove w) as Hrem.
  unfold trace, result, applyListeners, bind in *.
  destruct (removeListeners conn id remove w) as [[[e|] w1] t1]; simpl in *.
  - destruct Hrem as (t' & c' & e' & -> & Hc' & -> & Hall).
    rewrite List.app_nil_r. intros Heq Hc.
    apply (only_last_fails (λ ev : event, ev.2 = None)) in Heq as (-> & [= -> ->] & ->);
      [done | | done].
    eapply Forall_impl; [exact Hall|]. by intros ev [_ ?].
  - pose proof (addListeners_no_delete defaultTimeout conn id add w1) as Hadd.
    unfold trace in Hadd.
    destruct (addListeners defaultTimeout conn id add w1) as [[r w2] t2]; simpl in *.
    intros Heq Hc. exfalso.
    assert (Hin : (c, Some err) ∈ t1 ++ t2) by (rewrite Heq; set_solver).
    apply elem_of_app in Hin as [Hin | Hin].
    + rewrite Forall_forall in Hrem. by destruct (Hrem _ Hin).
    + rewrite Forall_forall in Hadd. specialize (Hadd _ Hin). simpl in Hadd. congruence.
Qed.

(** C7. In the listener block of the update, a delete that fails is the
    last call of the pass: the calls before it are deletes that went
    through, no delete and no create follows it, and the block returns the
    removal failure carrying the delete's error. *)
Theorem delete_failure_aborts_pass {W : Type} (defaultTimeout : Z)
    (expandListeners : list attrs → list Listener) (conn : Client W)
    (id : string) (o n : gmap Z attrs) (w : W)
    (pre post : list event) (c : call) (err : error) :
  trace (resourceAliyunSlbUpdate defaultTimeout expandListeners conn id o n) w =
    pre ++ (c, Some err) :: post →
  is_delete c = true →
  post = [] ∧
  result (resourceAliyunSlbUpdate defaultTimeout expandListeners conn id o n) w =
    Some (Wrapf "Failure removing outdated SLB listeners: " err) ∧
  Forall (λ ev : event, is_delete ev.1 = true ∧ ev.2 = None) pre.
Proof.
  unfold resourceAliyunSlbUpdate. case_bool_decide.
  - apply applyListeners_delete_failure.
  - unfold trace, ret; simpl. intros Heq. by destruct pre.
Qed.

(** With a service that answers every call with [nil], the pass deletes
    both current listeners and then creates, polls and starts the new one. *)
Example update_run :
  trace (resourceAliyunSlbUpdate 120 (map toListener) okClient "lb-1"
           current0 desired1) tt =
  [(DeleteLoadBalancerListener "lb-1" 80, None);
   (DeleteLoadBalancerListener "lb-1" 53, None);
   (CreateLoadBalancerHTTPListener
      (getHttpListenerType "lb-1" (toListener blockHttp)).1, None);
   (WaitForListenerAsyn "lb-1" 443 "HTTP" "stopped" 120, None);
   (StartLoadBalancerListener "lb-1" 443, None)].
Proof. vm_compute. reflexivity. Qed.

Lemma delete_failure_aborts_pass_witness :
  let run := resourceAliyunSlbUpdate 120 (map toListener) scriptClient "lb-1"
               current0 desired1 in
  let w := [Some (ApiError "ServiceUnavailable")] in
  tail (trace run w) = [] ∧
  result run w =
    Some (Wrapf "Failure removing outdated SLB listeners: "
            (ApiError "ServiceUnavailable")).
Proof.
  intros run w.
  destruct (delete_failure_aborts_pass 120 (map toListener) scriptClient "lb-1"
              current0 desired1 w [] (tail (trace run w))
              (DeleteLoadBalancerListener "lb-1" 80)
              (ApiError "ServiceUnavailable")) as (Hpost & Hres & _).
  - vm_compute. reflexivity.
  - reflexivity.
  - split; assumption.
Defined.

(** ** Round trips through the normalizer *)

(** The block an accepted listener is built into. *)
Lemma validator_accepts_block (id : string) (l : Listener) :
  (getHttpListenerType id l).2 = None →
  (getHttpListenerType id l).1 =
  {| HTTPListenerType.LoadBalancerId := id;
     HTTPListenerType.ListenerPort := LoadBalancerPort l;
     HTTPListenerType.BackendServerPort := InstancePort l;
     HTTPListenerType.Bandwidth := Bandwidth l;
     HTTPListenerType.Scheduler := Scheduler l;
     HTTPListenerType.HealthCheck := HealthCheck l;
     HTTPListenerType.StickySession := StickySession l;
     HTTPListenerType.StickySessionType := StickySessionType l;
     HTTPListenerType.CookieTimeout := CookieTimeout l;
     HTTPListenerType.Cookie := Cookie l;
     HTTPListenerType.HealthCheckDomain := HealthCheckDomain l;
     HTTPListenerType.HealthCheckURI := HealthCheckURI l;
     HTTPListenerType.HealthCheckConnectPort := HealthCheckConnectPort l;
     HTTPListenerType.HealthyThreshold := HealthyThreshold l;
     HTTPListenerType.UnhealthyThreshold := UnhealthyThreshold l;
     HTTPListenerType.HealthCheckTimeout := HealthCheckTimeout l;
     HTTPListenerType.HealthCheckInterval := HealthCheckInterval l;
     HTTPListenerType.HealthCheckHttpCode := HealthCheckHttpCode l |}.
Proof.
  unfold getHttpListenerType.
  destruct (bool_decide (HealthCheck l = slb.OnFlag) && healthCheckEmpty l);
    repeat case_bool_decide; simpl; done.
Qed.

(** An accepted http listener comes back with every http field as it was,
    the fields of the other protocols zero. *)
Lemma roundTripHttp_result (id : string) (l l' : Listener) :
  roundTripHttp id l = Some l' →
  l' =
  {| InstancePort := InstancePort l; LoadBalancerPort := LoadBalancerPort l;
     Protocol := Http; Bandwidth := Bandwidth l; Scheduler := Scheduler l;
     StickySession := StickySession l; StickySessionType := StickySessionType l;
     CookieTimeout := CookieTimeout l; Cookie := Cookie l;
     PersistenceTimeout := 0;
     HealthCheck := HealthCheck l; HealthCheckType := "";
     HealthCheckDomain := HealthCheckDomain l; HealthCheckURI := HealthCheckURI l;
     HealthCheckConnectPort := HealthCheckConnectPort l;
     HealthyThreshold := HealthyThreshold l;
     UnhealthyThreshold := UnhealthyThreshold l;
     HealthCheckTimeout := HealthCheckTimeout l;
     HealthCheckInterval := HealthCheckInterval l;
     HealthCheckHttpCode := HealthCheckHttpCode l;
     SSLCertificateId := "" |}.
Proof.
  unfold roundTripHttp, getHttpListenerArgs.
  pose proof (validator_accepts_block id l) as Hblock.
  destruct (getHttpListenerType id l) as [args [e|]]; [done|].
  simpl in Hblock. rewrite Hblock by done.
  destruct l. vm_compute. by intros [= <-].
Qed.

(** An accepted https listener with a certificate comes back with every
    https field as it was. *)
Lemma roundTripHttps_result (id : string) (l l' : Listener) :
  roundTripHttps id l = Some l' →
  l' =
  {| InstancePort := InstancePort l; LoadBalancerPort := LoadBalancerPort l;
     Protocol := Https; Bandwidth := Bandwidth l; Scheduler := Scheduler l;
     StickySession := StickySession l; StickySessionType := StickySessionType l;
     CookieTimeout := CookieTimeout l; Cookie := Cookie l;
     PersistenceTimeout := 0;
     HealthCheck := HealthCheck l; HealthCheckType := "";
     HealthCheckDomain := HealthCheckDomain l; HealthCheckURI := HealthCheckURI l;
     HealthCheckConnectPort := HealthCheckConnectPort l;
     HealthyThreshold := HealthyThreshold l;
     UnhealthyThreshold := UnhealthyThreshold l;
     HealthCheckTimeout := HealthCheckTimeout l;
     HealthCheckInterval := HealthCheckInterval l;
     HealthCheckHttpCode := HealthCheckHttpCode l;
     SSLCertificateId := SSLCertificateId l |}.
Proof.
  unfold roundTripHttps.
  pose proof (validator_accepts_block id l) as Hblock.
  destruct (getHttpListenerType id l) as [args [e|]]; [done|].
  simpl in Hblock. rewrite Hblock by done.
  case_bool_decide; [done|].
  destruct l. vm_compute. by intros [= <-].
Qed.

(** A tcp listener comes back with its tcp fields as they were, but for the
    health-check timeout: the builder stores it in the field
    [HealthCheckConnectTimeout], which the normalizer never reads. *)
Lemma roundTripTcp_result (id : string) (l : Listener) :
  roundTripTcp id l =
  Some {| InstancePort := InstancePort l; LoadBalancerPort := LoadBalancerPort l;
          Protocol := Tcp; Bandwidth := Bandwidth l; Scheduler := Scheduler l;
          StickySession := ""; StickySessionType := ""; CookieTimeout := 0;
          Cookie := ""; PersistenceTimeout := PersistenceTimeout l;
          HealthCheck := ""; HealthCheckType := HealthCheckType l;
          HealthCheckDomain := HealthCheckDomain l;
          HealthCheckURI := HealthCheckURI l;
          HealthCheckConnectPort := HealthCheckConnectPort l;
          HealthyThreshold := HealthyThreshold l;
          UnhealthyThreshold := UnhealthyThreshold l;
          HealthCheckTimeout := 0;
          HealthCheckInterval := HealthCheckInterval l;
          HealthCheckHttpCode := HealthCheckHttpCode l;
          SSLCertificateId := "" |}.
Proof. destruct l. vm_compute. reflexivity. Qed.

(** A udp listener comes back with its ports, bandwidth, persistence
    timeout and health-check interval; the health-check timeout is lost the
    same way. *)
Lemma roundTripUdp_result (id : string) (l : Listener) :
  roundTripUdp id l =
  Some {| InstancePort := InstancePort l; LoadBalancerPort := LoadBalancerPort l;
          Protocol := Udp; Bandwidth := Bandwidth l; Scheduler := "";
          StickySession := ""; StickySessionType := ""; CookieTimeout := 0;
          Cookie := ""; PersistenceTimeout := PersistenceTimeout l;
          HealthCheck := ""; HealthCheckType := "";
          HealthCheckDomain := ""; HealthCheckURI := "";
          HealthCheckConnectPort := 0; HealthyThreshold := 0;
          UnhealthyThreshold := 0; HealthCheckTimeout := 0;
          HealthCheckInterval := HealthCheckInterval l;
          HealthCheckHttpCode := "";
          SSLCertificateId := "" |}.
Proof. destruct l. vm_compute. reflexivity. Qed.

(** C8. The round trip of [tcpListener]: the builder puts the health-check
    timeout 5 into the request field [HealthCheckConnectTimeout]; the
    normalizer looks for a field [HealthCheckTimeout], which a tcp shape
    does not have; the listener comes back with a health-check timeout of
    0 and every other field as it was. *)
Theorem tcp_round_trip_loses_health_check_timeout :
  HealthCheckTimeout tcpListener = 5 ∧
  TCPListenerType.HealthCheckConnectTimeout
    (getTcpListenerArgs "lb-1" tcpListener) = 5 ∧
  FieldByName (getTcpListenerArgs "lb-1" tcpListener) "HealthCheckTimeout" = None ∧
  roundTripTcp "lb-1" tcpListener =
    Some {| InstancePort := 8080; LoadBalancerPort := 22; Protocol := "tcp";
            Bandwidth := 10; Scheduler := "wrr";
            StickySession := ""; StickySessionType := ""; CookieTimeout := 0;
            Cookie := ""; PersistenceTimeout := 30;
            HealthCheck := ""; HealthCheckType := "http";
            HealthCheckDomain := "example.org"; HealthCheckURI := "/ping";
            HealthCheckConnectPort := 8080; HealthyThreshold := 3;
            UnhealthyThreshold := 3; HealthCheckTimeout := 0;
            HealthCheckInterval := 2; HealthCheckHttpCode := "http_2xx";
            SSLCertificateId := "" |} ∧
  roundTripTcp "lb-1" tcpListener ≠ Some tcpListener.
Proof.
  split; [reflexivity|]. split; [reflexivity|]. split; [reflexivity|].
  split; [reflexivity|].
  rewrite roundTripTcp_result. intros [= Heq].
Qed.

(** * Further properties of the code *)

(** ** The validator, rule by rule *)

(** X1. On an http or https listener that passes the health-check rule, a
    sticky session switched on without a session type is rejected with the
    sticky-session kind, and [createListener] returns its message without a
    call to the service. *)
Theorem sticky_session_type_required {W : Type} (defaultTimeout : Z)
    (conn : Client W) (id : string) (l : Listener) (w : W) :
  Protocol l = "http" ∨ Protocol l = "https" →
  healthCheckPasses l →
  StickySession l = slb.OnFlag →
  StickySessionType l = "" →
  (getHttpListenerType id l).2 =
    Some (ListenerError {| ErrType := StickySessionErrType;
                           Err := "err: stickySession empty." |}) ∧
  createListener defaultTimeout conn id l w =
    (Some (Errorf "When the StickySession is on, then StickySessionType parameter must have."),
     w, []).
Proof.
  intros Hp Hpass Hon Hty.
  assert (Hv : getHttpListenerType id l =
               (HTTPListenerType.zero,
                Some (ListenerError {| ErrType := StickySessionErrType;
                                       Err := "err: stickySession empty." |}))).
  { unfold getHttpListenerType.
    by rewrite (healthCheckPasses_guard l Hpass), (bool_decide_eq_true_2 _ Hon), Hty. }
  split; [by rewrite Hv|].
  by rewrite (createListener_validator_error defaultTimeout conn id l w _ _ Hp Hv).
Qed.

Lemma sticky_session_type_required_witness :
  createListener 120 okClient "lb-1" (withSticky "" 0 "" httpListener) tt =
    (Some (Errorf "When the StickySession is on, then StickySessionType parameter must have."),
     tt, []).
Proof.
  apply (sticky_session_type_required 120 okClient "lb-1"
           (withSticky "" 0 "" httpListener) tt);
    [by left | left; discriminate | reflexivity | reflexivity].
Defined.

(** X2. On a listener that passes the health-check rule, with the sticky
    session on and of type server, the validator fails with the cookie kind
    exactly when the cookie is empty, and accepts the listener otherwise,
    whatever its cookie timeout. *)
Theorem server_session_requires_cookie (id : string) (l : Listener) :
  healthCheckPasses l →
  StickySession l = slb.OnFlag →
  StickySessionType l = slb.ServerStickySessionType →
  ((getHttpListenerType id l).2 =
     Some (ListenerError {| ErrType := CookieErrType;
                            Err := "err: cookie empty." |}) ↔
   Cookie l = "") ∧
  (Cookie l ≠ "" → (getHttpListenerType id l).2 = None).
Proof.
  intros Hpass Hon Hsrv. unfold getHttpListenerType.
  rewrite (healthCheckPasses_guard l Hpass), (bool_decide_eq_true_2 _ Hon), Hsrv.
  simpl. case_bool_decide as Hc; simpl.
  - split; [done|]. intros Hne. by destruct Hne.
  - split; [|done]. split; [discriminate | done].
Qed.

Lemma server_session_requires_cookie_witness :
  (getHttpListenerType "lb-1" (withSticky "server" 0 "" httpListener)).2 =
     Some (ListenerError {| ErrType := CookieErrType;
                            Err := "err: cookie empty." |}) ∧
  (getHttpListenerType "lb-1" (withSticky "server" 0 "SESSION" httpListener)).2 = None.
Proof.
  split.
  - apply (server_session_requires_cookie "lb-1" (withSticky "server" 0 "" httpListener));
      [left; discriminate | reflexivity | reflexivity | reflexivity].
  - apply (server_session_requires_cookie "lb-1"
             (withSticky "server" 0 "SESSION" httpListener));
      [left; discriminate | reflexivity | reflexivity | discriminate].
Defined.

(** X3. The listeners the validator accepts: those that pass the
    health-check rule and, when the sticky session is on, name a session
    type, with a non-zero cookie timeout if the type is insert and a
    non-empty cookie if it is server. *)
Theorem validator_accepts_iff (id : string) (l : Listener) :
  (getHttpListenerType id l).2 = None ↔
  healthCheckPasses l ∧
  (StickySession l = slb.OnFlag →
   StickySessionType l ≠ "" ∧
   (StickySessionType l = slb.InsertStickySessionType → CookieTimeout l ≠ 0) ∧
   (StickySessionType l = slb.ServerStickySessionType → Cookie l ≠ "")).
Proof.
  unfold getHttpListenerType.
  destruct (bool_decide (HealthCheck l = slb.OnFlag) && healthCheckEmpty l) eqn:Hg.
  - split; [done|]. intros [Hpass _].
    rewrite (healthCheckPasses_guard l Hpass) in Hg. done.
  - assert (Hpass : healthCheckPasses l).
    { apply andb_false_iff in Hg as [Hg | Hg];
        [left; by apply bool_decide_eq_false in Hg | by right]. }
    unfold slb.InsertStickySessionType, slb.ServerStickySessionType.
    repeat case_bool_decide; simpl; (split; [intros ?|intros [_ ?]]); intuition congruence.
Qed.

(** X4. [getHttpListenerArgs] returns what [getHttpListenerType] returns;
    and when the validator rejects a listener the block returned with the
    error is the zero block, never a partly filled one. *)
Theorem rejected_listener_has_zero_block (id : string) (l : Listener) :
  getHttpListenerArgs id l = getHttpListenerType id l ∧
  ((getHttpListenerType id l).2 ≠ None →
   (getHttpListenerType id l).1 = HTTPListenerType.zero).
Proof.
  unfold getHttpListenerArgs, getHttpListenerType.
  destruct (bool_decide (HealthCheck l = slb.OnFlag) && healthCheckEmpty l);
    repeat case_bool_decide; simpl; done.
Qed.

(** ** The create call of each protocol *)

Lemma createCall_tcp {W : Type} (conn : Client W) (id : string) (l : Listener) :
  Protocol l = "tcp" →
  createCall conn id l =
    rpc conn (CreateLoadBalancerTCPListener (getTcpListenerArgs id l)).
Proof. intros H. unfold createCall. by rewrite H. Qed.

Lemma createCall_udp {W : Type} (conn : Client W) (id : string) (l : Listener) :
  Protocol l = "udp" →
  createCall conn id l =
    rpc conn (CreateLoadBalancerUDPListener (getUdpListenerArgs id l)).
Proof. intros H. unfold createCall. by rewrite H. Qed.

(** The calls of [createListener] begin with those of the dispatch. *)
Lemma createListener_first_call {W : Type} (defaultTimeout : Z) (conn : Client W)
    (id : string) (l : Listener) (w : W) (c : call) :
  createCall conn id l w =
    ((invoke conn c w).1, (invoke conn c w).2, [(c, (invoke conn c w).1)]) →
  ∃ answer rest,
    trace (createListener defaultTimeout conn id l) w = (c, answer) :: rest.
Proof.
  intros Hcall. unfold trace. rewrite createListener_run, Hcall.
  destruct (invoke conn c w) as [[err|] w0]; simpl; [by eauto|].
  destruct (invoke conn (waitCall defaultTimeout id l) w0) as [[err|] w1];
    simpl; [by eauto|].
  destruct (invoke conn (startCall id l) w1) as [started w2]; simpl. by eauto.
Qed.

(** X5. A tcp or udp listener is never validated: whatever its fields hold,
    the first thing [createListener] does is the create call of its
    protocol, with the arguments the builder made of it. *)
Theorem tcp_udp_created_without_validation {W : Type} (defaultTimeout : Z)
    (conn : Client W) (id : string) (l : Listener) (w : W) :
  (Protocol l = "tcp" →
   ∃ answer rest,
     trace (createListener defaultTimeout conn id l) w =
       (CreateLoadBalancerTCPListener (getTcpListenerArgs id l), answer) :: rest) ∧
  (Protocol l = "udp" →
   ∃ answer rest,
     trace (createListener defaultTimeout conn id l) w =
       (CreateLoadBalancerUDPListener (getUdpListenerArgs id l), answer) :: rest).
Proof.
  split; intros Hp; apply createListener_first_call.
  - rewrite (createCall_tcp conn id l Hp). unfold rpc.
    by destruct (invoke conn _ w).
  - rewrite (createCall_udp conn id l Hp). unfold rpc.
    by destruct (invoke conn _ w).
Qed.

Lemma tcp_udp_created_without_validation_witness :
  (∃ answer rest,
     trace (createListener 120 okClient "lb-1" tcpListener) tt =
       (CreateLoadBalancerTCPListener (getTcpListenerArgs "lb-1" tcpListener),
        answer) :: rest) ∧
  (∃ answer rest,
     trace (createListener 120 okClient "lb-1"
              (withProtocol "udp" "" (withSticky "" 0 "" httpListener))) tt =
       (CreateLoadBalancerUDPListener
          (getUdpListenerArgs "lb-1"
             (withProtocol "udp" "" (withSticky "" 0 "" httpListener))),
        answer) :: rest).
Proof.
  split.
  - apply (tcp_udp_created_without_validation 120 okClient "lb-1" tcpListener tt).
    reflexivity.
  - apply (tcp_udp_created_without_validation 120 okClient "lb-1"
             (withProtocol "udp" "" (withSticky "" 0 "" httpListener)) tt).
    reflexivity.
Defined.

(** X6. An http listener the validator accepts is created with the block
    the validator built; an accepted https listener with a certificate is
    created with that block and the certificate. *)
Theorem http_https_created_with_validated_block {W : Type} (defaultTimeout : Z)
    (conn : Client W) (id : string) (l : Listener) (w : W) :
  (getHttpListenerType id l).2 = None →
  (Protocol l = "http" →
   ∃ answer rest,
     trace (createListener defaultTimeout conn id l) w =
       (CreateLoadBalancerHTTPListener (getHttpListenerType id l).1, answer) :: rest) ∧
  (Protocol l = "https" → SSLCertificateId l ≠ "" →
   ∃ answer rest,
     trace (createListener defaultTimeout conn id l) w =
       (CreateLoadBalancerHTTPSListener
          {| HTTPSListenerType.HTTPListenerType := (getHttpListenerType id l).1;
             HTTPSListenerType.ServerCertificateId := SSLCertificateId l |},
        answer) :: rest).
Proof.
  intros Hok. split.
  - intros Hp. apply createListener_first_call.
    rewrite (createCall_http conn id l Hp). unfold getHttpListenerArgs.
    destruct (getHttpListenerType id l) as [block err]. simpl in Hok. subst err.
    simpl. unfold rpc. by destruct (invoke conn _ w).
  - intros Hp Hcert. apply createListener_first_call.
    rewrite (createCall_https conn id l Hp).
    destruct (getHttpListenerType id l) as [block err]. simpl in Hok. subst err.
    simpl. rewrite (bool_decide_eq_false_2 _ Hcert). unfold rpc.
    by destruct (invoke conn _ w).
Qed.

Lemma http_https_created_with_validated_block_witness :
  (∃ answer rest,
     trace (createListener 120 okClient "lb-1" httpListener) tt =
       (CreateLoadBalancerHTTPListener (getHttpListenerType "lb-1" httpListener).1,
        answer) :: rest) ∧
  (∃ answer rest,
     trace (createListener 120 okClient "lb-1"
              (withProtocol "https" "cert-1" httpListener)) tt =
       (CreateLoadBalancerHTTPSListener
          {| HTTPSListenerType.HTTPListenerType :=
               (getHttpListenerType "lb-1" (withProtocol "https" "cert-1" httpListener)).1;
             HTTPSListenerType.ServerCertificateId := "cert-1" |},
        answer) :: rest).
Proof.
  split.
  - apply (http_https_created_with_validated_block 120 okClient "lb-1" httpListener tt);
      reflexivity.
  - apply (http_https_created_with_validated_block 120 okClient "lb-1"
             (withProtocol "https" "cert-1" httpListener) tt);
      [reflexivity | reflexivity | discriminate].
Defined.

(** ** Outcomes of [createListener] *)

(** X7. When the create call fails, [createListener] returns the client's
    error as it is and makes no further call: no poll, no start. *)
Theorem create_failure_returned_unwrapped {W : Type} (defaultTimeout : Z)
    (conn : Client W) (id : string) (l : Listener) (w : W)
    (c : call) (e : error) (rest : list event) :
  trace (createListener defaultTimeout conn id l) w = (c, Some e) :: rest →
  is_create c = true →
  rest = [] ∧ result (createListener defaultTimeout conn id l) w = Some e.
Proof.
  destruct (createListener_runs defaultTimeout conn id l w)
    as [t0 err Ht0 | t0 err Ht0 | t0 started Ht0];
    unfold waitCall, startCall;
    destruct Ht0 as [-> | (c0 & Hc0 & ->)]; simpl;
    intros Heq Hc; simplify_eq/=; done.
Qed.

Lemma create_failure_returned_unwrapped_witness :
  result (createListener 120 scriptClient "lb-1" tcpListener)
    [Some (ApiError "QuotaExceeded")] = Some (ApiError "QuotaExceeded").
Proof.
  apply (create_failure_returned_unwrapped 120 scriptClient "lb-1" tcpListener
           [Some (ApiError "QuotaExceeded")]
           (CreateLoadBalancerTCPListener (getTcpListenerArgs "lb-1" tcpListener))
           (ApiError "QuotaExceeded") []);
    reflexivity.
Defined.

(** X8. [createListener] returns [nil] only when the listener was started:
    its last two calls are then the poll and the start for the listener's
    port, both answered [nil], after at most one successful create call. *)
Theorem nil_result_means_started {W : Type} (defaultTimeout : Z)
    (conn : Client W) (id : string) (l : Listener) (w : W) :
  result (createListener defaultTimeout conn id l) w = None →
  ∃ t0,
    (t0 = [] ∨ ∃ c, is_create c = true ∧ t0 = [(c, None)]) ∧
    trace (createListener defaultTimeout conn id l) w =
      t0 ++ [(WaitForListenerAsyn id (LoadBalancerPort l) (ToUpper (Protocol l))
                slb.Stopped defaultTimeout, None);
             (StartLoadBalancerListener id (LoadBalancerPort l), None)].
Proof.
  destruct (createListener_runs defaultTimeout conn id l w)
    as [t0 err Ht0 | t0 err Ht0 | t0 started Ht0]; try done.
  intros ->. by exists t0.
Qed.

Lemma nil_result_means_started_witness :
  ∃ t0,
    (t0 = [] ∨ ∃ c, is_create c = true ∧ t0 = [(c, None)]) ∧
    trace (createListener 120 okClient "lb-1" httpListener) tt =
      t0 ++ [(WaitForListenerAsyn "lb-1" 80 "HTTP" "stopped" 120, None);
             (StartLoadBalancerListener "lb-1" 80, None)].
Proof.
  apply (nil_result_means_started 120 okClient "lb-1" httpListener tt).
  reflexivity.
Defined.

(** X9. [createListener] makes at most three calls, at most one of them a
    create call, and never a delete. *)
Theorem createListener_call_budget {W : Type} (defaultTimeout : Z)
    (conn : Client W) (id : string) (l : Listener) (w : W) :
  (length (trace (createListener defaultTimeout conn id l) w) ≤ 3)%nat ∧
  (length (filter (λ ev : event, is_create ev.1 = true)
             (trace (createListener defaultTimeout conn id l) w)) ≤ 1)%nat ∧
  Forall (λ ev : event, is_delete ev.1 = false)
    (trace (createListener defaultTimeout conn id l) w).
Proof.
  split; [|split; [|apply createListener_no_delete]];
    destruct (createListener_runs defaultTimeout conn id l w)
      as [t0 err Ht0 | t0 err Ht0 | t0 started Ht0];
    unfold waitCall, startCall;
    destruct Ht0 as [-> | (c0 & Hc0 & ->)]; simpl; try lia;
    rewrite ?filter_cons, ?filter_nil; simpl;
    repeat case_decide; simpl; try lia; try congruence.
Qed.

(** ** The two loops of the update *)

(** X10. The removal loop over [xs ++ ys] is the loop over [xs] followed,
    if that one went through, by the loop over [ys] on the service it left;
    a failure within [xs] is the outcome of the whole, with nothing of [ys]
    attempted. *)
Theorem removeListeners_app {W : Type} (conn : Client W) (id : string)
    (xs ys : list Listener) (w : W) :
  removeListeners conn id (xs ++ ys) w =
  match removeListeners conn id xs w with
  | (Some err, w1, t1) => (Some err, w1, t1)
  | (None, w1, t1) =>
      let '(r, w2, t2) := removeListeners conn id ys w1 in (r, w2, t1 ++ t2)
  end.
Proof.
  revert w. induction xs as [|x xs IH]; intros w; simpl.
  - by destruct (removeListeners conn id ys w) as [[r w2] t2].
  - unfold bind, rpc. destruct (invoke conn _ w) as [[e|] w1]; simpl; [done|].
    rewrite IH.
    destruct (removeListeners conn id xs w1) as [[[err|] w2] t1]; simpl; [done|].
    by destruct (removeListeners conn id ys w2) as [[r w3] t2].
Qed.

(** X11. The addition loop composes the same way: a listener that fails to
    be created ends the loop, and the listeners after it are not touched. *)
Theorem addListeners_app {W : Type} (defaultTimeout : Z) (conn : Client W)
    (id : string) (xs ys : list Listener) (w : W) :
  addListeners defaultTimeout conn id (xs ++ ys) w =
  match addListeners defaultTimeout conn id xs w with
  | (Some err, w1, t1) => (Some err, w1, t1)
  | (None, w1, t1) =>
      let '(r, w2, t2) := addListeners defaultTimeout conn id ys w1 in
      (r, w2, t1 ++ t2)
  end.
Proof.
  revert w. induction xs as [|x xs IH]; intros w; simpl.
  - by destruct (addListeners defaultTimeout conn id ys w) as [[r w2] t2].
  - unfold bind.
    destruct (createListener defaultTimeout conn id x w) as [[[e|] w1] t0];
      simpl; [done|].
    rewrite IH.
    destruct (addListeners defaultTimeout conn id xs w1) as [[[err|] w2] t1];
      simpl; [done|].
    destruct (addListeners defaultTimeout conn id ys w2) as [[r w3] t2].
    by rewrite (assoc_L (++)).
Qed.

(** X12. When the removal loop goes through, its calls are exactly one
    delete per listener, keyed by the listener's load-balancer port, in the
    order of the list. *)
Theorem removeListeners_deletes_each_port {W : Type} (conn : Client W)
    (id : string) (remove : list Listener) (w : W) :
  result (removeListeners conn id remove) w = None →
  trace (removeListeners conn id remove) w =
    (λ l, (DeleteLoadBalancerListener id (LoadBalancerPort l), None)) <$> remove.
Proof.
  revert w. unfold result, trace.
  induction remove as [|l rest IH]; intros w; simpl; [done|].
  unfold bind, rpc. destruct (invoke conn _ w) as [[e|] w1]; simpl; [done|].
  specialize (IH w1).
  destruct (removeListeners conn id rest w1) as [[[err|] w2] t]; simpl in *;
    [done|].
  intros _. by rewrite IH.
Qed.

Lemma removeListeners_deletes_each_port_witness :
  trace (removeListeners okClient "lb-1" [tcpListener; httpListener]) tt =
    [(DeleteLoadBalancerListener "lb-1" 22, None);
     (DeleteLoadBalancerListener "lb-1" 80, None)].
Proof.
  apply (removeListeners_deletes_each_port okClient "lb-1"
           [tcpListener; httpListener] tt).
  reflexivity.
Defined.

(** The calls of the two loops: deletes, then calls that are not deletes. *)
Lemma applyListeners_phases {W : Type} (defaultTimeout : Z) (conn : Client W)
    (id : string) (remove add : list Listener) (w : W) :
  ∃ t1 t2,
    trace (applyListeners defaultTimeout conn id remove add) w = t1 ++ t2 ∧
    Forall (λ ev : event, is_delete ev.1 = true) t1 ∧
    Forall (λ ev : event, is_delete ev.1 = false) t2.
Proof.
  pose proof (removeListeners_run conn id remove w) as Hrem.
  unfold trace, result, applyListeners, bind in *.
  destruct (removeListeners conn id remove w) as [[[e|] w1] t1]; simpl in *.
  - destruct Hrem as (t' & c & e' & -> & Hc & -> & Hall).
    exists (t' ++ [(c, Some e')]), []. split; [done|]. split; [|done].
    apply Forall_app. split; [|by repeat constructor].
    eapply Forall_impl; [exact Hall|]. by intros ev [? _].
  - pose proof (addListeners_no_delete defaultTimeout conn id add w1) as Hadd.
    unfold trace in Hadd.
    destruct (addListeners defaultTimeout conn id add w1) as [[r w2] t2]; simpl in *.
    exists t1, t2. split; [done|]. split; [|done].
    eapply Forall_impl; [exact Hrem|]. by intros ev [? _].
Qed.

Lemma nothing_after_phase_change {A : Type} (P : A → Prop) (t1 t2 pre post : list A)
    (x : A) :
  Forall P t1 → Forall (λ y, ¬ P y) t2 → ¬ P x →
  t1 ++ t2 = pre ++ x :: post → Forall (λ y, ¬ P y) post.
Proof.
  intros H1 H2 Hx. revert pre.
  induction H1 as [|a t1 Ha H1 IH]; intros pre Heq; simpl in Heq.
  - subst t2. apply Forall_app in H2 as [_ H2]. by inversion H2.
  - destruct pre as [|p pre]; simplify_eq/=; [done|]. by eapply IH.
Qed.

(** X13. In the listener block of the update every delete comes before
    every create, poll and start: once a call that is not a delete has been
    made, no delete follows. *)
Theorem update_deletes_come_first {W : Type} (defaultTimeout : Z)
    (expandListeners : list attrs → list Listener) (conn : Client W)
    (id : string) (o n : gmap Z attrs) (w : W)
    (pre post : list event) (ev : event) :
  trace (resourceAliyunSlbUpdate defaultTimeout expandListeners conn id o n) w =
    pre ++ ev :: post →
  is_delete ev.1 = false →
  Forall (λ ev' : event, is_delete ev'.1 = false) post.
Proof.
  unfold resourceAliyunSlbUpdate. case_bool_decide.
  - destruct (applyListeners_phases defaultTimeout conn id
                (expandListeners (listenerDiff n o).1)
                (expandListeners (listenerDiff n o).2) w)
      as (t1 & t2 & -> & H1 & H2).
    intros Heq Hev.
    eapply Forall_impl;
      [eapply (nothing_after_phase_change
                 (λ ev' : event, is_delete ev'.1 = true) t1 t2 pre post ev);
       try done|].
    + eapply Forall_impl; [exact H2|]. intros ev' Hf. simpl in *. congruence.
    + congruence.
    + intros ev' Hf. simpl in *. by destruct (is_delete ev'.1).
  - unfold trace, ret; simpl. intros Heq. by destruct pre.
Qed.

Lemma update_deletes_come_first_witness :
  Forall (λ ev' : event, is_delete ev'.1 = false)
    [(WaitForListenerAsyn "lb-1" 443 "HTTP" "stopped" 120, None);
     (StartLoadBalancerListener "lb-1" 443, None)].
Proof.
  apply (update_deletes_come_first 120 (map toListener) okClient "lb-1"
           current0 desired1 tt
           [(DeleteLoadBalancerListener "lb-1" 80, None);
            (DeleteLoadBalancerListener "lb-1" 53, None)]
           [(WaitForListenerAsyn "lb-1" 443 "HTTP" "stopped" 120, None);
            (StartLoadBalancerListener "lb-1" 443, None)]
           (CreateLoadBalancerHTTPListener
              (getHttpListenerType "lb-1" (toListener blockHttp)).1, None)).
  - vm_compute. reflexivity.
  - reflexivity.
Defined.

(** A failing addition loop returns, under its label, the error that
    [createListener] returned for one of its listeners. *)
Lemma addListeners_failure {W : Type} (defaultTimeout : Z) (conn : Client W)
    (id : string) (add : list Listener) (w : W) (err : error) :
  result (addListeners defaultTimeout conn id add) w = Some err →
  ∃ e l w1,
    l ∈ add ∧
    result (createListener defaultTimeout conn id l) w1 = Some e ∧
    err = Wrapf "Failure add SLB listeners: " e.
Proof.
  revert w. unfold result.
  induction add as [|l rest IH]; intros w; simpl; [done|].
  unfold bind.
  destruct (createListener defaultTimeout conn id l w) as [[[e|] w1] t0] eqn:Hl;
    simpl.
  - intros [= <-]. exists e, l, w. split; [by left|]. by rewrite Hl.
  - specialize (IH w1).
    destruct (addListeners defaultTimeout conn id rest w1) as [[r w2] t1].
    simpl in *. intros Hr. destruct (IH Hr) as (e & l' & w' & Hin & He & ->).
    exists e, l', w'. split; [by right|]. done.
Qed.

(** X14. Every error of the listener block names the phase that failed.
    Under the removal label it carries the error of a failed delete, which
    is the last call made. Under the addition label it carries the error
    that [createListener] returned for a listener to add, and every delete
    of the pass went through. *)
Theorem update_error_names_phase {W : Type} (defaultTimeout : Z)
    (expandListeners : list attrs → list Listener) (conn : Client W)
    (id : string) (o n : gmap Z attrs) (w : W) (err : error) :
  let run := resourceAliyunSlbUpdate defaultTimeout expandListeners conn id o n in
  result run w = Some err →
  (∃ pre c e,
     trace run w = pre ++ [(c, Some e)] ∧ is_delete c = true ∧
     err = Wrapf "Failure removing outdated SLB listeners: " e) ∨
  (∃ e l w1,
     l ∈ expandListeners (listenerDiff n o).2 ∧
     result (createListener defaultTimeout conn id l) w1 = Some e ∧
     err = Wrapf "Failure add SLB listeners: " e ∧
     Forall (λ ev : event, is_delete ev.1 = true → ev.2 = None) (trace run w)).
Proof.
  intros run. subst run.
  unfold resourceAliyunSlbUpdate. case_bool_decide; [|done].
  set (remove := expandListeners (listenerDiff n o).1).
  set (add := expandListeners (listenerDiff n o).2).
  pose proof (removeListeners_run conn id remove w) as Hrem.
  unfold result, trace, applyListeners, bind in *.
  destruct (removeListeners conn id remove w) as [[[e|] w1] t1]; simpl in *.
  - destruct Hrem as (t' & c & e' & -> & Hc & -> & _). intros [= <-]. left.
    exists t', c, e'. by rewrite List.app_nil_r.
  - pose proof (addListeners_failure defaultTimeout conn id add w1 err) as Hadd.
    pose proof (addListeners_no_delete defaultTimeout conn id add w1) as Hnd.
    unfold result, trace in Hadd, Hnd.
    destruct (addListeners defaultTimeout conn id add w1) as [[r w2] t2]; simpl in *.
    intros ->. right.
    destruct (Hadd eq_refl) as (e & l & w' & Hin & He & ->).
    exists e, l, w'. split; [done|]. split; [done|]. split; [done|].
    apply Forall_app. split.
    + eapply Forall_impl; [exact Hrem|]. by intros ev [_ ?] _.
    + eapply Forall_impl; [exact Hnd|]. intros ev Hf Ht. simpl in *. congruence.
Qed.

Lemma update_error_names_phase_witness :
  let run := resourceAliyunSlbUpdate 120 (map toListener) scriptClient "lb-1"
               current0 desired1 in
  let w := [None; None; None; Some (ApiError "Timeout")] in
  let err := Wrapf "Failure add SLB listeners: "
               (Wrapf "WaitForListener stopped got error: " (ApiError "Timeout")) in
  (∃ pre c e,
     trace run w = pre ++ [(c, Some e)] ∧ is_delete c = true ∧
     err = Wrapf "Failure removing outdated SLB listeners: " e) ∨
  (∃ e l w1,
     l ∈ map toListener (listenerDiff desired1 current0).2 ∧
     result (createListener 120 scriptClient "lb-1" l) w1 = Some e ∧
     err = Wrapf "Failure add SLB listeners: " e ∧
     Forall (λ ev : event, is_delete ev.1 = true → ev.2 = None) (trace run w)).
Proof.
  intros run w err.
  apply (update_error_names_phase 120 (map toListener) scriptClient "lb-1"
           current0 desired1 w err).
  vm_compute. reflexivity.
Defined.

(** X15. A change that leaves the fingerprints as they were applies
    nothing: when the old and the new set hold the same codes, whatever the
    other fields of their blocks, the listener block makes no call and
    returns without error. *)
Theorem same_fingerprints_apply_nothing {W : Type} (defaultTimeout : Z)
    (expandListeners : list attrs → list Listener) (conn : Client W)
    (id : string) (o n : gmap Z attrs) (w : W) :
  expandListeners [] = [] →
  dom o = dom n →
  resourceAliyunSlbUpdate defaultTimeout expandListeners conn id o n w =
    (None, w, []).
Proof.
  intros Hnil Hdom.
  assert (Hdiff : ∀ a b : gmap Z attrs, dom a = dom b →
            SchemaSet.List (SchemaSet.Difference a b) = []).
  { intros a b Hab. unfold SchemaSet.List, SchemaSet.Difference.
    replace (a ∖ b) with (∅ : gmap Z attrs); [by rewrite map_to_list_empty|].
    apply map_eq. intros k. rewrite lookup_empty. symmetry.
    apply lookup_difference_None.
    destruct (a !! k) as [x|] eqn:Hk; [right | by left].
    apply elem_of_dom. rewrite <- Hab. apply elem_of_dom. by eexists. }
  unfold resourceAliyunSlbUpdate, listenerDiff. simpl.
  rewrite (Hdiff o n Hdom), (Hdiff n o (eq_sym Hdom)), Hnil.
  by case_bool_decide.
Qed.

Lemma same_fingerprints_apply_nothing_witness :
  currentSame ≠ desiredSame ∧
  resourceAliyunSlbUpdate 120 (map toListener) okClient "lb-1"
    currentSame desiredSame tt = (None, tt, []).
Proof.
  split.
  - intros Heq.
    apply (f_equal (λ s : gmap Z attrs,
                      (λ m : attrs, m !! "scheduler") <$> SchemaSet.List s)) in Heq.
    vm_compute in Heq. discriminate Heq.
  - apply (same_fingerprints_apply_nothing 120 (map toListener) okClient "lb-1"
             currentSame desiredSame tt); [reflexivity|].
    vm_compute. reflexivity.
Defined.

(** ** The fingerprint: when it is defined, and its range *)

(** X16. The hash of a block is defined exactly when the block has its four
    required keys with their types (instance_port, lb_port and bandwidth
    integers, lb_protocol a string) and its certificate key, if there at
    all, holds a string; on any other block the hash panics. *)
Theorem hash_defined_iff (m : attrs) :
  is_Some (resourceAliyunSlbListenerHash m) ↔
  (∃ n, m !! "instance_port" = Some (VInt n)) ∧
  (∃ n, m !! "lb_port" = Some (VInt n)) ∧
  (∃ s, m !! "lb_protocol" = Some (VStr s)) ∧
  (∃ n, m !! "bandwidth" = Some (VInt n)) ∧
  (m !! "ssl_certificate_id" = None ∨
   ∃ s, m !! "ssl_certificate_id" = Some (VStr s)).
Proof.
  unfold resourceAliyunSlbListenerHash.
  destruct (m !! "instance_port") as [[n1|s1]|]; simpl;
    [|split; [by intros [? ?] | by intros [[? ?] _]]..].
  destruct (m !! "lb_port") as [[n2|s2]|]; simpl;
    [|split; [by intros [? ?] | by intros (_ & [? ?] & _)]..].
  destruct (m !! "lb_protocol") as [[n3|s3]|]; simpl;
    [split; [by intros [? ?] | by intros (_ & _ & [? ?] & _)]| |
     split; [by intros [? ?] | by intros (_ & _ & [? ?] & _)]].
  destruct (m !! "bandwidth") as [[n4|s4]|]; simpl;
    [|split; [by intros [? ?] | by intros (_ & _ & _ & [? ?] & _)]..].
  destruct (m !! "ssl_certificate_id") as [[n5|s5]|]; simpl.
  - split; [by intros [? ?]|]. intros (_ & _ & _ & _ & [? | [? ?]]); done.
  - split; [|by eauto]. intros _. repeat split; eauto.
  - split; [|by eauto]. intros _. repeat split; eauto.
Qed.

Lemma lxor_32 (a b : Z) :
  0 ≤ a < 2 ^ 32 → 0 ≤ b < 2 ^ 32 → 0 ≤ Z.lxor a b < 2 ^ 32.
Proof.
  intros Ha Hb.
  assert (Hnn : 0 ≤ Z.lxor a b) by (apply Z.lxor_nonneg; lia).
  split; [done|].
  assert (Hhigh : Z.shiftr (Z.lxor a b) 32 = 0).
  { rewrite Z.shiftr_lxor, !Z.shiftr_div_pow2 by lia.
    by rewrite !Z.div_small by lia. }
  rewrite Z.shiftr_div_pow2 in Hhigh by lia.
  apply Z.div_small_iff in Hhigh; lia.
Qed.

Lemma crc_bit_32 (c : Z) : 0 ≤ c < 2 ^ 32 → 0 ≤ crc_bit c < 2 ^ 32.
Proof.
  intros Hc. unfold crc_bit.
  assert (Hhalf : 0 ≤ Z.shiftr c 1 < 2 ^ 32).
  { rewrite Z.shiftr_div_pow2 by lia. change (2 ^ 1) with 2.
    split; [apply Z.div_pos; lia|]. apply Z.div_lt_upper_bound; lia. }
  destruct (Z.testbit c 0); [|done]. apply lxor_32; [done|lia].
Qed.

Lemma crc_byte_32 (c : Z) (b : ascii) : 0 ≤ c < 2 ^ 32 → 0 ≤ crc_byte c b < 2 ^ 32.
Proof.
  intros Hc. unfold crc_byte.
  assert (Hb : 0 ≤ Z.of_N (N_of_ascii b) < 2 ^ 32).
  { pose proof (N_ascii_bounded b). lia. }
  pose proof (lxor_32 c _ Hc Hb) as Hstart.
  generalize dependent (Z.lxor c (Z.of_N (N_of_ascii b))). intros x Hx.
  do 8 (apply crc_bit_32 in Hx). exact Hx.
Qed.

(** The checksum is a 32-bit value. *)
Lemma ChecksumIEEE_32 (s : string) : 0 ≤ ChecksumIEEE s < 2 ^ 32.
Proof.
  unfold ChecksumIEEE. apply lxor_32; [|lia].
  assert (Hgen : ∀ (bytes : list ascii) (c : Z),
            0 ≤ c < 2 ^ 32 → 0 ≤ fold_left crc_byte bytes c < 2 ^ 32).
  { induction bytes as [|b bytes IH]; intros c Hc; simpl; [done|].
    apply IH. by apply crc_byte_32. }
  apply Hgen. lia.
Qed.

(** X17. The hash of a listener block is a 32-bit value, never negative:
    the set stores the block under that very code, so the branches of the
    hash helper and of the set that negate a negative code are never taken
    for a listener. *)
Theorem fingerprint_is_32_bit (m : attrs) (h : Z) :
  resourceAliyunSlbListenerHash m = Some h →
  0 ≤ h < 2 ^ 32 ∧ fingerprint m = Some h.
Proof.
  intros Hh.
  assert (Hrange : 0 ≤ h < 2 ^ 32).
  { unfold resourceAliyunSlbListenerHash in Hh.
    destruct (m !! "instance_port" ≫= as_int); simpl in Hh; [|done].
    destruct (m !! "lb_port" ≫= as_int); simpl in Hh; [|done].
    destruct (m !! "lb_protocol" ≫= as_str); simpl in Hh; [|done].
    destruct (m !! "bandwidth" ≫= as_int); simpl in Hh; [|done].
    destruct (match m !! "ssl_certificate_id" with
              | Some v => s ← as_str v; Some (s +:+ "-")
              | None => Some ""
              end); simpl in Hh; [|done].
    injection Hh as <-. unfold hashcode_String.
    match goal with |- context [ChecksumIEEE ?s] =>
      pose proof (ChecksumIEEE_32 s) as Hc; destruct (0 <=? ChecksumIEEE s) eqn:Hle
    end; [done|]. apply Z.leb_gt in Hle. lia. }
  split; [done|]. unfold fingerprint, SchemaSet.hash. rewrite Hh. simpl.
  destruct (h <? 0) eqn:Hneg; [apply Z.ltb_lt in Hneg; lia | done].
Qed.

Lemma fingerprint_is_32_bit_witness :
  0 ≤ hashcode_String "8080-80-tcp--1-" < 2 ^ 32 ∧
  fingerprint block1 = Some (hashcode_String "8080-80-tcp--1-").
Proof.
  apply (fingerprint_is_32_bit block1 (hashcode_String "8080-80-tcp--1-")).
  reflexivity.
Defined.

(** ** The normalizer as a projection *)

Lemma copyInt_put {T : Type} `{Reflect T} (listen : T) (field key : string)
    (m m' : attrs) :
  copyInt listen field key m = Some m' →
  m' = put key (FieldByName listen field) m.
Proof.
  unfold copyInt, put. destruct (FieldByName listen field) as [[n|s]|]; simpl;
    by intros [= <-].
Qed.

Lemma copyStr_put {T : Type} `{Reflect T} (listen : T) (field key : string)
    (m m' : attrs) :
  copyStr listen field key m = Some m' →
  m' = put key (FieldByName listen field) m.
Proof.
  unfold copyStr, put. destruct (FieldByName listen field) as [[n|s]|]; simpl;
    by intros [= <-].
Qed.

Lemma lookup_put_ne (key key' : string) (v : option value) (m : attrs) :
  key ≠ key' → put key v m !! key' = m !! key'.
Proof. intros Hne. destruct v; simpl; [by rewrite lookup_insert_ne|done]. Qed.

Lemma lookup_put_eq (key : string) (v : option value) (m : attrs) :
  put key v m !! key = from_option Some (m !! key) v.
Proof. destruct v; simpl; [by rewrite lookup_insert_eq|done]. Qed.

(** A finished normalization is the chain of its copies. *)
Lemma setListenerAttribute_puts {T : Type} `{Reflect T} (listen : T)
    (protocol : string) (m : attrs) :
  setListenerAttribute listen protocol = Some m →
  m =
  put "ssl_certificate_id" (FieldByName listen "ServerCertificateId")
  (put "health_check_http_code" (FieldByName listen "HealthCheckHttpCode")
  (put "health_check_interval" (FieldByName listen "HealthCheckInterval")
  (put "health_check_timeout" (FieldByName listen "HealthCheckTimeout")
  (put "unhealthy_threshold" (FieldByName listen "UnhealthyThreshold")
  (put "healthy_threshold" (FieldByName listen "HealthyThreshold")
  (put "health_check_uri" (FieldByName listen "HealthCheckURI")
  (put "health_check_connect_port" (FieldByName listen "HealthCheckConnectPort")
  (put "health_check_domain" (FieldByName listen "HealthCheckDomain")
  (put "health_check_type" (FieldByName listen "HealthCheckType")
  (put "persistence_timeout" (FieldByName listen "PersistenceTimeout")
  (put "cookie" (FieldByName listen "Cookie")
  (put "cookie_timeout" (FieldByName listen "CookieTimeout")
  (put "sticky_session_type" (FieldByName listen "StickySessionType")
  (put "sticky_session" (FieldByName listen "StickySession")
  (put "health_check" (FieldByName listen "HealthCheck")
  (<["lb_protocol" := VStr protocol]>
  (put "scheduler" (FieldByName listen "Scheduler")
  (put "bandwidth" (FieldByName listen "Bandwidth")
  (put "lb_port" (FieldByName listen "ListenerPort")
  (put "instance_port" (FieldByName listen "BackendServerPort") ∅)))))))))))))))))))).
Proof.
  unfold setListenerAttribute.
  repeat match goal with
  | |- context [copyInt listen ?f ?k ?m0] =>
      let E := fresh "E" in
      destruct (copyInt listen f k m0) as [?|] eqn:E; simpl; [|done];
      apply copyInt_put in E; subst
  | |- context [copyStr listen ?f ?k ?m0] =>
      let E := fresh "E" in
      destruct (copyStr listen f k m0) as [?|] eqn:E; simpl; [|done];
      apply copyStr_put in E; subst
  end.
  by intros [= <-].
Qed.

Ltac lookup_chain :=
  repeat first
    [ rewrite lookup_put_ne by done
    | rewrite lookup_put_eq
    | rewrite lookup_insert_ne by done
    | rewrite lookup_insert_eq
    | rewrite lookup_empty ].

(** X18. The normalizer is a projection by field name, for any struct
    handed to it: when it finishes, the map holds the protocol tag as it was
    given, holds under each schema key exactly what the struct has in the
    field of that copy (nothing, if the struct lacks the field), and holds
    no other key. *)
Theorem normalizer_projects_fields {T : Type} `{Reflect T} (listen : T)
    (protocol : string) (m : attrs) :
  setListenerAttribute listen protocol = Some m →
  m !! "lb_protocol" = Some (VStr protocol) ∧
  Forall (λ copy : string * string, m !! copy.2 = FieldByName listen copy.1)
    attributeTable ∧
  ∀ key, key ≠ "lb_protocol" → key ∉ attributeTable.*2 → m !! key = None.
Proof.
  intros Hm. apply setListenerAttribute_puts in Hm. subst m.
  split; [by lookup_chain|]. split.
  - unfold attributeTable.
    repeat (apply Forall_cons; split;
            [cbv beta; cbn [fst snd]; lookup_chain;
             by destruct (FieldByName listen _)|]).
    by constructor.
  - intros key Hproto Hkey.
    assert (Hne : ∀ k, k ∈ attributeTable.*2 → k ≠ key) by (by intros k Hk ->).
    repeat first
      [ rewrite lookup_put_ne by (apply Hne; set_solver)
      | rewrite lookup_insert_ne by (by apply not_eq_sym) ].
    apply lookup_empty.
Qed.

Lemma normalizer_projects_fields_witness :
  let m := default ∅ (setListenerAttribute (getUdpListenerArgs "lb-1" tcpListener) Udp) in
  m !! "lb_protocol" = Some (VStr "udp") ∧
  m !! "lb_port" = Some (VInt 22) ∧
  m !! "scheduler" = None.
Proof.
  intros m.
  destruct (normalizer_projects_fields (getUdpListenerArgs "lb-1" tcpListener) Udp m)
    as (Htag & Hfields & _); [reflexivity|].
  split; [exact Htag|].
  rewrite Forall_forall in Hfields. split.
  - apply (Hfields ("ListenerPort", "lb_port")). set_solver.
  - apply (Hfields ("Scheduler", "scheduler")). set_solver.
Defined.

Lemma normalizer_http_Some (args : HTTPListenerType.t) (protocol : string) :
  is_Some (setListenerAttribute args protocol).
Proof. destruct args. vm_compute. eauto. Qed.

Lemma normalizer_https_Some (args : HTTPSListenerType.t) (protocol : string) :
  is_Some (setListenerAttribute args protocol).
Proof. destruct args as [[] ?]. vm_compute. eauto. Qed.

Lemma normalizer_tcp_Some (args : TCPListenerType.t) (protocol : string) :
  is_Some (setListenerAttribute args protocol).
Proof. destruct args. vm_compute. eauto. Qed.

Lemma normalizer_udp_Some (args : UDPListenerType.t) (protocol : string) :
  is_Some (setListenerAttribute args protocol).
Proof. destruct args. vm_compute. eauto. Qed.

(** X19. On the four listener structs of the slb package every type
    assertion of the normalizer holds: it never panics on them, whatever
    their fields contain and whatever the tag. *)
Theorem normalizer_total_on_slb_shapes (protocol : string) :
  (∀ args : HTTPListenerType.t, is_Some (setListenerAttribute args protocol)) ∧
  (∀ args : HTTPSListenerType.t, is_Some (setListenerAttribute args protocol)) ∧
  (∀ args : TCPListenerType.t, is_Some (setListenerAttribute args protocol)) ∧
  (∀ args : UDPListenerType.t, is_Some (setListenerAttribute args protocol)).
Proof.
  split; [|split; [|split]]; intros args.
  - apply normalizer_http_Some.
  - apply normalizer_https_Some.
  - apply normalizer_tcp_Some.
  - apply normalizer_udp_Some.
Qed.

(** ** Round trips that do come back *)

(** X20. An http listener the validator accepts comes back from the round
    trip with every http field as it was and the fields of the other
    protocols (persistence timeout, health-check type, certificate) zero. *)
Theorem http_round_trip (id : string) (l : Listener) :
  (getHttpListenerType id l).2 = None →
  roundTripHttp id l =
  Some {| InstancePort := InstancePort l; LoadBalancerPort := LoadBalancerPort l;
          Protocol := "http"; Bandwidth := Bandwidth l; Scheduler := Scheduler l;
          StickySession := StickySession l;
          StickySessionType := StickySessionType l;
          CookieTimeout := CookieTimeout l; Cookie := Cookie l;
          PersistenceTimeout := 0;
          HealthCheck := HealthCheck l; HealthCheckType := "";
          HealthCheckDomain := HealthCheckDomain l;
          HealthCheckURI := HealthCheckURI l;
          HealthCheckConnectPort := HealthCheckConnectPort l;
          HealthyThreshold := HealthyThreshold l;
          UnhealthyThreshold := UnhealthyThreshold l;
          HealthCheckTimeout := HealthCheckTimeout l;
          HealthCheckInterval := HealthCheckInterval l;
          HealthCheckHttpCode := HealthCheckHttpCode l;
          SSLCertificateId := "" |}.
Proof.
  intros Hok. unfold roundTripHttp, getHttpListenerArgs.
  pose proof (validator_accepts_block id l Hok) as Hblock.
  destruct (getHttpListenerType id l) as [args err]. simpl in *. subst err args.
  destruct l. vm_compute. reflexivity.
Qed.

Lemma http_round_trip_witness :
  roundTripHttp "lb-1" (withSticky "insert" 30 "" (withHealthCheck "/ping" httpListener)) =
  Some (withSticky "insert" 30 "" (withHealthCheck "/ping" httpListener)).
Proof.
  apply (http_round_trip "lb-1"
           (withSticky "insert" 30 "" (withHealthCheck "/ping" httpListener))).
  reflexivity.
Defined.

(** X21. An https listener with a certificate that the validator accepts
    comes back with every http field and the certificate as they were. *)
Theorem https_round_trip (id : string) (l : Listener) :
  (getHttpListenerType id l).2 = None →
  SSLCertificateId l ≠ "" →
  roundTripHttps id l =
  Some {| InstancePort := InstancePort l; LoadBalancerPort := LoadBalancerPort l;
          Protocol := "https"; Bandwidth := Bandwidth l; Scheduler := Scheduler l;
          StickySession := StickySession l;
          StickySessionType := StickySessionType l;
          CookieTimeout := CookieTimeout l; Cookie := Cookie l;
          PersistenceTimeout := 0;
          HealthCheck := HealthCheck l; HealthCheckType := "";
          HealthCheckDomain := HealthCheckDomain l;
          HealthCheckURI := HealthCheckURI l;
          HealthCheckConnectPort := HealthCheckConnectPort l;
          HealthyThreshold := HealthyThreshold l;
          UnhealthyThreshold := UnhealthyThreshold l;
          HealthCheckTimeout := HealthCheckTimeout l;
          HealthCheckInterval := HealthCheckInterval l;
          HealthCheckHttpCode := HealthCheckHttpCode l;
          SSLCertificateId := SSLCertificateId l |}.
Proof.
  intros Hok Hcert. unfold roundTripHttps.
  pose proof (validator_accepts_block id l Hok) as Hblock.
  destruct (getHttpListenerType id l) as [args err]. simpl in *. subst err args.
  rewrite (bool_decide_eq_false_2 _ Hcert).
  destruct l. vm_compute. reflexivity.
Qed.

Lemma https_round_trip_witness :
  roundTripHttps "lb-1" (withProtocol "https" "cert-1" httpListener) =
  Some (withProtocol "https" "cert-1" httpListener).
Proof.
  apply (https_round_trip "lb-1" (withProtocol "https" "cert-1" httpListener));
    [reflexivity | discriminate].
Defined.

(** X22. The udp round trip gives a listener back unchanged exactly when
    its protocol is udp and it has nothing but ports, bandwidth,
    persistence timeout and health-check interval: a scheduler, a
    health-check timeout or any other field set on a udp listener does not
    survive it. *)
Theorem udp_round_trip_fixed_points (id : string) (l : Listener) :
  roundTripUdp id l = Some l ↔
  Protocol l = "udp" ∧ Scheduler l = "" ∧
  StickySession l = "" ∧ StickySessionType l = "" ∧
  CookieTimeout l = 0 ∧ Cookie l = "" ∧
  HealthCheck l = "" ∧ HealthCheckType l = "" ∧
  HealthCheckDomain l = "" ∧ HealthCheckURI l = "" ∧
  HealthCheckConnectPort l = 0 ∧ HealthyThreshold l = 0 ∧
  UnhealthyThreshold l = 0 ∧ HealthCheckTimeout l = 0 ∧
  HealthCheckHttpCode l = "" ∧ SSLCertificateId l = "".
Proof.
  rewrite roundTripUdp_result. destruct l; simpl. split.
  - intros [= ? ? ? ? ? ? ? ? ? ? ? ? ? ? ? ?]. by repeat split.
  - intros (? & ? & ? & ? & ? & ? & ? & ? & ? & ? & ? & ? & ? & ? & ? & ?).
    by subst.
Qed.

(** ** The read path *)

Section ReadingFacts.
Context {W : Type}.
Variable IsExceptedError : error → string → bool.
Variable UnsupportedProtocalPort : string.

Lemma describeInto_grows {T : Type} `{Reflect T}
    (describe : W → (option T * option error) * W) (label protocol : string)
    (listeners : list attrs) (w : W) :
  (∀ attributes : T, is_Some (setListenerAttribute attributes protocol)) →
  protocol ∈ ["http"; "https"; "tcp"; "udp"] →
  label ∈ ["Error DescribeLoadBalancerHTTPListenerAttribute: ";
           "Error DescribeLoadBalancerHTTPSListenerAttribute: ";
           "Error DescribeLoadBalancerTCPListenerAttribute: ";
           "Error DescribeLoadBalancerUDPListenerAttribute: "] →
  grows IsExceptedError UnsupportedProtocalPort 1 listeners
    (describeInto IsExceptedError UnsupportedProtocalPort describe label
       protocol listeners w).1.
Proof.
  intros Htotal Hproto Hlabel. unfold describeInto.
  destruct (describe w) as [[ls err] w1].
  assert (Happended : grows IsExceptedError UnsupportedProtocalPort 1 listeners
            match ls with
            | Some attributes =>
                match setListenerAttribute attributes protocol with
                | Some listener => Done (listeners ++ [listener])
                | None => Panicked
                end
            | None => Done listeners
            end).
  { destruct ls as [attributes|]; simpl.
    - destruct (Htotal attributes) as [m Hm]. rewrite Hm. simpl.
      exists [m]. split; [done|]. split; [simpl; lia|].
      constructor; [|constructor]. unfold tagged.
      apply setListenerAttribute_puts in Hm. subst m.
      lookup_chain.
      exact (list_elem_of_fmap_2 (λ p : string, Some (VStr p)) _ _ Hproto).
    - exists []. split; [by rewrite (right_id_L [] (++))|]. split; [simpl; lia|].
      constructor. }
  destruct err as [e|]; simpl; [|done].
  destruct (IsExceptedError e UnsupportedProtocalPort) eqn:He; simpl; [done|].
  exists label, e. done.
Qed.

Lemma grows_trans (n k : nat) (l0 l1 : list attrs) (o : outcome (list attrs)) :
  (∃ new, l1 = l0 ++ new ∧ (length new ≤ n)%nat ∧ Forall tagged new) →
  grows IsExceptedError UnsupportedProtocalPort k l1 o →
  grows IsExceptedError UnsupportedProtocalPort (n + k) l0 o.
Proof.
  intros (new & -> & Hlen & Hall). destruct o as [l2|err|]; simpl; [|done..].
  intros (new' & -> & Hlen' & Hall').
  exists (new ++ new'). rewrite (assoc_L (++)). split; [done|].
  rewrite length_app. split; [lia|]. by apply Forall_app.
Qed.

Ltac protocol_or_label :=
  unfold Http, Https, Tcp, Udp; rewrite !elem_of_cons; tauto.

Lemma readPort_grows (conn : Reader W) (id : string) (port : Z)
    (listeners : list attrs) (w : W) :
  grows IsExceptedError UnsupportedProtocalPort 4 listeners
    (readPort IsExceptedError UnsupportedProtocalPort conn id port listeners w).1.
Proof.
  unfold readPort.
  pose proof (describeInto_grows
    (DescribeLoadBalancerHTTPListenerAttribute conn id port)
    "Error DescribeLoadBalancerHTTPListenerAttribute: " Http listeners w
    (λ a, normalizer_http_Some a Http)) as H1.
  destruct (describeInto _ _ _ _ Http listeners w) as [[l1|e1|] w1];
    simpl in H1; [|apply H1; protocol_or_label..].
  apply (grows_trans 1 3 listeners l1); [apply H1; protocol_or_label|].
  pose proof (describeInto_grows
    (DescribeLoadBalancerHTTPSListenerAttribute conn id port)
    "Error DescribeLoadBalancerHTTPSListenerAttribute: " Https l1 w1
    (λ a, normalizer_https_Some a Https)) as H2.
  destruct (describeInto _ _ _ _ Https l1 w1) as [[l2|e2|] w2];
    simpl in H2; [|apply H2; protocol_or_label..].
  apply (grows_trans 1 2 l1 l2); [apply H2; protocol_or_label|].
  pose proof (describeInto_grows
    (DescribeLoadBalancerTCPListenerAttribute conn id port)
    "Error DescribeLoadBalancerTCPListenerAttribute: " Tcp l2 w2
    (λ a, normalizer_tcp_Some a Tcp)) as H3.
  destruct (describeInto _ _ _ _ Tcp l2 w2) as [[l3|e3|] w3];
    simpl in H3; [|apply H3; protocol_or_label..].
  apply (grows_trans 1 1 l2 l3); [apply H3; protocol_or_label|].
  apply (describeInto_grows
    (DescribeLoadBalancerUDPListenerAttribute conn id port)
    "Error DescribeLoadBalancerUDPListenerAttribute: " Udp l3 w3
    (λ a, normalizer_udp_Some a Udp)); protocol_or_label.
Qed.

Lemma readPorts_grows (conn : Reader W) (id : string) (ports : list Z)
    (listeners : list attrs) (w : W) :
  grows IsExceptedError UnsupportedProtocalPort (4 * length ports) listeners
    (readPorts IsExceptedError UnsupportedProtocalPort conn id ports listeners w).1.
Proof.
  revert listeners w. induction ports as [|port rest IH]; intros listeners w.
  - simpl. exists []. split; [by rewrite (right_id_L [] (++))|].
    split; [simpl; lia|]. constructor.
  - replace (4 * length (port :: rest))%nat with (4 + 4 * length rest)%nat
      by (simpl; lia).
    cbn [readPorts].
    pose proof (readPort_grows conn id port listeners w) as Hport.
    destruct (readPort _ _ conn id port listeners w) as [[l1|e|] w1];
      simpl in Hport; [|done..].
    by apply (grows_trans 4 (4 * length rest) listeners l1).
Qed.

(** X23. [readListerners] never panics, and what it returns is bounded by
    the ports it was given: without an error, at most four listeners per
    port, each tagged http, https, tcp or udp. *)
Theorem read_returns_tagged_listeners (conn : Reader W)
    (loadBalancer : LoadBalancerType) (w : W) :
  match (readListerners IsExceptedError UnsupportedProtocalPort conn
           loadBalancer w).1 with
  | Done listeners =>
      (length listeners ≤ 4 * length (ListenerPorts loadBalancer))%nat ∧
      Forall tagged listeners
  | Failed _ => True
  | Panicked => False
  end.
Proof.
  pose proof (readPorts_grows conn (LoadBalancerId loadBalancer)
                (ListenerPorts loadBalancer) [] w) as Hg.
  unfold readListerners.
  destruct (readPorts _ _ conn _ _ [] w) as [[listeners|e|] w1]; simpl in *;
    [|done..].
  by destruct Hg as (new & -> & Hlen & Hall).
Qed.

(** A block that stops with an error stops on the error of its own
    describe call, which the excepted-error test did not recognize, under
    the label it was given. *)
Lemma describeInto_failed {T : Type} `{Reflect T}
    (describe : W → (option T * option error) * W) (label protocol : string)
    (listeners : list attrs) (w : W) (err : error) :
  (describeInto IsExceptedError UnsupportedProtocalPort describe label protocol
     listeners w).1 = Failed err →
  ∃ e, err = Wrapf label e ∧ (describe w).1.2 = Some e ∧
       IsExceptedError e UnsupportedProtocalPort = false.
Proof.
  unfold describeInto. destruct (describe w) as [[ls e] w1]. simpl.
  assert (Hno : ∀ err',
            match ls with
            | Some attributes =>
                match setListenerAttribute attributes protocol with
                | Some listener => Done (listeners ++ [listener])
                | None => Panicked
                end
            | None => Done listeners
            end ≠ Failed err').
  { intros err'. destruct ls as [attributes|]; [|done].
    by destruct (setListenerAttribute attributes protocol). }
  destruct e as [e|]; simpl; [|by intros ?%Hno].
  destruct (IsExceptedError e UnsupportedProtocalPort) eqn:He; simpl;
    [by intros ?%Hno|].
  intros [= <-]. by exists e.
Qed.

Lemma readPort_failed (conn : Reader W) (id : string) (port : Z)
    (listeners : list attrs) (w : W) (err : error) :
  (readPort IsExceptedError UnsupportedProtocalPort conn id port listeners w).1 =
    Failed err →
  ∃ w0 e, IsExceptedError e UnsupportedProtocalPort = false ∧
          failedOn conn id port w0 e err.
Proof.
  unfold readPort, failedOn.
  destruct (describeInto _ _ _ _ Http listeners w) as [[l1|e1|] w1] eqn:H1; simpl.
  - destruct (describeInto _ _ _ _ Https l1 w1) as [[l2|e2|] w2] eqn:H2; simpl.
    + destruct (describeInto _ _ _ _ Tcp l2 w2) as [[l3|e3|] w3] eqn:H3; simpl.
      * intros H4. apply describeInto_failed in H4 as (e & -> & He & Hex).
        exists w3, e. split; [done|]. right; right; right. done.
      * intros [= <-].
        apply (f_equal fst) in H3. simpl in H3.
        apply describeInto_failed in H3 as (e & -> & He & Hex).
        exists w2, e. split; [done|]. right; right; left. done.
      * done.
    + intros [= <-].
      apply (f_equal fst) in H2. simpl in H2.
      apply describeInto_failed in H2 as (e & -> & He & Hex).
      exists w1, e. split; [done|]. right; left. done.
    + done.
  - intros [= <-].
    apply (f_equal fst) in H1. simpl in H1.
    apply describeInto_failed in H1 as (e & -> & He & Hex).
    exists w, e. split; [done|]. left. done.
  - done.
Qed.

Lemma readPorts_failed (conn : Reader W) (id : string) (ports : list Z)
    (listeners : list attrs) (w : W) (err : error) :
  (readPorts IsExceptedError UnsupportedProtocalPort conn id ports listeners w).1 =
    Failed err →
  ∃ port w0 e, port ∈ ports ∧
               IsExceptedError e UnsupportedProtocalPort = false ∧
               failedOn conn id port w0 e err.
Proof.
  revert listeners w. induction ports as [|port rest IH]; intros listeners w;
    simpl; [done|].
  destruct (readPort _ _ conn id port listeners w) as [[l1|e|] w1] eqn:Hport; simpl.
  - intros (port' & w0 & e & Hin & He & Hon)%IH.
    exists port', w0, e. split; [by right|]. done.
  - intros [= <-]. apply (f_equal fst) in Hport. simpl in Hport.
    apply readPort_failed in Hport as (w0 & e' & He & Hon).
    exists port, w0, e'. split; [by left|]. done.
  - done.
Qed.

(** X24. When [readListerners] fails, the error is that of a describe call
    on one of the load balancer's ports which the excepted-error test did
    not recognize, wrapped under the label of that very call: the http
    label for an error of the http describe, the https label for the https
    one, and so for tcp and udp. An error the test recognizes never makes
    the read fail. *)
Theorem read_fails_only_on_unexcepted_error (conn : Reader W)
    (loadBalancer : LoadBalancerType) (w : W) (err : error) :
  (readListerners IsExceptedError UnsupportedProtocalPort conn loadBalancer w).1 =
    Failed err →
  ∃ port w0 e,
    port ∈ ListenerPorts loadBalancer ∧
    IsExceptedError e UnsupportedProtocalPort = false ∧
    ((err = Wrapf "Error DescribeLoadBalancerHTTPListenerAttribute: " e ∧
      (DescribeLoadBalancerHTTPListenerAttribute conn
         (LoadBalancerId loadBalancer) port w0).1.2 = Some e) ∨
     (err = Wrapf "Error DescribeLoadBalancerHTTPSListenerAttribute: " e ∧
      (DescribeLoadBalancerHTTPSListenerAttribute conn
         (LoadBalancerId loadBalancer) port w0).1.2 = Some e) ∨
     (err = Wrapf "Error DescribeLoadBalancerTCPListenerAttribute: " e ∧
      (DescribeLoadBalancerTCPListenerAttribute conn
         (LoadBalancerId loadBalancer) port w0).1.2 = Some e) ∨
     (err = Wrapf "Error DescribeLoadBalancerUDPListenerAttribute: " e ∧
      (DescribeLoadBalancerUDPListenerAttribute conn
         (LoadBalancerId loadBalancer) port w0).1.2 = Some e)).
Proof. unfold readListerners. apply readPorts_failed. Qed.

(** X25. Reading the ports [xs ++ ys] is reading [xs] and then, if that
    went through, reading [ys] from the listeners and the service it left;
    a read of [xs] that stopped is the outcome of the whole. *)
Theorem readPorts_app (conn : Reader W) (id : string) (xs ys : list Z)
    (listeners : list attrs) (w : W) :
  readPorts IsExceptedError UnsupportedProtocalPort conn id (xs ++ ys) listeners w =
  match readPorts IsExceptedError UnsupportedProtocalPort conn id xs listeners w with
  | (Done listeners1, w1) =>
      readPorts IsExceptedError UnsupportedProtocalPort conn id ys listeners1 w1
  | stop => stop
  end.
Proof.
  revert listeners w. induction xs as [|x xs IH]; intros listeners w; simpl; [done|].
  destruct (readPort _ _ conn id x listeners w) as [[l1|e|] w1]; [|done..].
  apply IH.
Qed.

(** X26. A load balancer on whose ports every describe call finds nothing,
    answering [nil] attributes with no error or with the excepted error,
    reads as the empty list, without an error. *)
Theorem read_of_nothing_found (conn : Reader W)
    (loadBalancer : LoadBalancerType) (w : W) :
  (∀ port w0,
     foundNothing IsExceptedError UnsupportedProtocalPort
       (DescribeLoadBalancerHTTPListenerAttribute conn
          (LoadBalancerId loadBalancer) port w0) ∧
     foundNothing IsExceptedError UnsupportedProtocalPort
       (DescribeLoadBalancerHTTPSListenerAttribute conn
          (LoadBalancerId loadBalancer) port w0) ∧
     foundNothing IsExceptedError UnsupportedProtocalPort
       (DescribeLoadBalancerTCPListenerAttribute conn
          (LoadBalancerId loadBalancer) port w0) ∧
     foundNothing IsExceptedError UnsupportedProtocalPort
       (DescribeLoadBalancerUDPListenerAttribute conn
          (LoadBalancerId loadBalancer) port w0)) →
  (readListerners IsExceptedError UnsupportedProtocalPort conn loadBalancer w).1 =
    Done [].
Proof.
  intros Hnone. unfold readListerners.
  set (id := LoadBalancerId loadBalancer) in *.
  assert (Hstep : ∀ {T : Type} `{Reflect T}
            (describe : W → (option T * option error) * W) label protocol w0,
            foundNothing IsExceptedError UnsupportedProtocalPort (describe w0) →
            (describeInto IsExceptedError UnsupportedProtocalPort describe label
               protocol [] w0).1 = Done []).
  { intros T HT describe label protocol w0 [Hls He]. unfold describeInto.
    destruct (describe w0) as [[ls err] w1]. simpl in *. subst ls.
    destruct err as [e|]; [|done]. by rewrite (He e). }
  generalize (ListenerPorts loadBalancer). intros ports. revert w.
  induction ports as [|port rest IH]; intros w; simpl; [done|].
  assert (Hport : (readPort IsExceptedError UnsupportedProtocalPort conn id port [] w).1
                  = Done []).
  { unfold readPort.
    destruct (Hnone port w) as (Hh & _).
    pose proof (Hstep _ _ (DescribeLoadBalancerHTTPListenerAttribute conn id port)
      "Error DescribeLoadBalancerHTTPListenerAttribute: " Http w Hh) as H1.
    destruct (describeInto _ _ _ _ Http [] w) as [o1 w1]. simpl in H1. subst o1.
    destruct (Hnone port w1) as (_ & Hs & _).
    pose proof (Hstep _ _ (DescribeLoadBalancerHTTPSListenerAttribute conn id port)
      "Error DescribeLoadBalancerHTTPSListenerAttribute: " Https w1 Hs) as H2.
    destruct (describeInto _ _ _ _ Https [] w1) as [o2 w2]. simpl in H2. subst o2.
    destruct (Hnone port w2) as (_ & _ & Ht & _).
    pose proof (Hstep _ _ (DescribeLoadBalancerTCPListenerAttribute conn id port)
      "Error DescribeLoadBalancerTCPListenerAttribute: " Tcp w2 Ht) as H3.
    destruct (describeInto _ _ _ _ Tcp [] w2) as [o3 w3]. simpl in H3. subst o3.
    destruct (Hnone port w3) as (_ & _ & _ & Hu).
    apply (Hstep _ _ (DescribeLoadBalancerUDPListenerAttribute conn id port)
      "Error DescribeLoadBalancerUDPListenerAttribute: " Udp w3 Hu). }
  destruct (readPort _ _ conn id port [] w) as [o w1]. simpl in Hport. subst o.
  apply IH.
Qed.
End ReadingFacts.

(** The read of a service with one http listener on port 80: that listener,
    normalized, and nothing for port 443. *)
Example read_run :
  (λ o, match o with
        | Done listeners => Some (toListener <$> listeners)
        | _ => None
        end)
    (readListerners isCode "UnsupportedProtocalPort" httpOnlyReader
       sampleBalancer tt).1 =
  Some [httpListener].
Proof. vm_compute. reflexivity. Qed.

Lemma read_fails_only_on_unexcepted_error_witness :
  ∃ port w0 e,
    port ∈ [80; 443] ∧
    isCode e "UnsupportedProtocalPort" = false ∧
    ((Wrapf "Error DescribeLoadBalancerTCPListenerAttribute: "
        (ApiError "ServiceUnavailable") =
      Wrapf "Error DescribeLoadBalancerHTTPListenerAttribute: " e ∧
      (DescribeLoadBalancerHTTPListenerAttribute brokenTcpReader
         "lb-1" port w0).1.2 = Some e) ∨
     (Wrapf "Error DescribeLoadBalancerTCPListenerAttribute: "
        (ApiError "ServiceUnavailable") =
      Wrapf "Error DescribeLoadBalancerHTTPSListenerAttribute: " e ∧
      (DescribeLoadBalancerHTTPSListenerAttribute brokenTcpReader
         "lb-1" port w0).1.2 = Some e) ∨
     (Wrapf "Error DescribeLoadBalancerTCPListenerAttribute: "
        (ApiError "ServiceUnavailable") =
      Wrapf "Error DescribeLoadBalancerTCPListenerAttribute: " e ∧
      (DescribeLoadBalancerTCPListenerAttribute brokenTcpReader
         "lb-1" port w0).1.2 = Some e) ∨
     (Wrapf "Error DescribeLoadBalancerTCPListenerAttribute: "
        (ApiError "ServiceUnavailable") =
      Wrapf "Error DescribeLoadBalancerUDPListenerAttribute: " e ∧
      (DescribeLoadBalancerUDPListenerAttribute brokenTcpReader
         "lb-1" port w0).1.2 = Some e)).
Proof.
  apply (read_fails_only_on_unexcepted_error isCode "UnsupportedProtocalPort"
           brokenTcpReader sampleBalancer tt).
  vm_compute. reflexivity.
Defined.

Lemma read_of_nothing_found_witness :
  (readListerners isCode "UnsupportedProtocalPort" emptyReader sampleBalancer tt).1 =
    Done [].
Proof.
  apply (read_of_nothing_found isCode "UnsupportedProtocalPort" emptyReader
           sampleBalancer tt).
  intros port w0. unfold foundNothing. simpl.
  repeat split; intros e He; try discriminate He; by injection He as <-.
Defined.
